(** * The style updater of Stylus ([background/update.js])

    A shallow embedding of the update checker: the per-style check
    ([checkStyle] with its inner steps), the scheduler ([schedule]) and the
    rolling log ([log], [flushQueue]), followed by the properties of the
    decision chain.

    Promises are modelled by their settlement: a computation takes the
    module's variables and the trace of calls made to its collaborators, and
    returns how the promise settles together with the new state. *)

From Stdlib Require Import ZArith List Bool Lia.
From stdpp Require Import base decidable option list strings gmap pretty.

Local Open Scope Z_scope.
Local Open Scope string_scope.
#[local] Set Warnings "-register-all".

(** ** JavaScript values *)

(** The values a remote document is made of: what [JSON.parse] returns, and
    [undefined] for an absent property. Objects keep their properties as an
    association list. *)
Inductive Value :=
  | JUndefined
  | JNull
  | JBool (b : bool)
  | JNum (n : Z)
  | JStr (s : string)
  | JArr (items : list Value)
  | JObj (fields : list (string * Value)).

(** What a promise is rejected with, or what a handler throws: a transport
    status (a number), one of the [STATES] strings, or an [Error] object. *)
Inductive Reason :=
  | Status (code : Z)
  | Message (text : string)
  | Exception (name msg : string).

(** The completion of synchronous code. *)
Inductive Completion (A : Type) :=
  | Normal (a : A)
  | Throw (e : Reason).
Arguments Normal {A} a.
Arguments Throw {A} e.

Definition TypeError {A} (msg : string) : Completion A :=
  Throw (Exception "TypeError" msg).

Definition cbind {A B} (c : Completion A) (k : A -> Completion B) : Completion B :=
  match c with
  | Normal a => k a
  | Throw e => Throw e
  end.

Declare Scope js_scope.
Delimit Scope js_scope with js.
Notation "'try' x := c 'in' k" := (cbind c (fun x => k))
  (at level 10, x name, c at level 100, k at level 200, only parsing) : js_scope.

(** JavaScript truthiness. *)
Definition truthy (v : Value) : bool :=
  match v with
  | JUndefined | JNull => false
  | JBool b => b
  | JNum n => negb (Z.eqb n 0)
  | JStr s => negb (String.eqb s "")
  | JArr _ | JObj _ => true
  end.

(** Truthiness of an optional string property of a local style. *)
Definition truthy_str (o : option string) : bool :=
  match o with
  | Some s => negb (String.eqb s "")
  | None => false
  end.

Fixpoint lookup_field (k : string) (fs : list (string * Value)) : Value :=
  match fs with
  | [] => JUndefined
  | (k', v) :: rest => if String.eqb k k' then v else lookup_field k rest
  end.

(** [delete obj.k] *)
Fixpoint remove_field (k : string) (fs : list (string * Value)) : list (string * Value) :=
  match fs with
  | [] => []
  | (k', v) :: rest =>
      if String.eqb k k' then remove_field k rest else (k', v) :: remove_field k rest
  end.

(** [obj.k = v] *)
Definition assign_field (k : string) (v : Value) (fs : list (string * Value))
  : list (string * Value) :=
  (k, v) :: remove_field k fs.

(** [v.k]: reading a property of [undefined] or [null] throws; primitives
    only have [length] (strings); arrays have [length] besides their items. *)
Definition prop (v : Value) (k : string) : Completion Value :=
  match v with
  | JUndefined => TypeError ("Cannot read property '" ++ k ++ "' of undefined")
  | JNull => TypeError ("Cannot read property '" ++ k ++ "' of null")
  | JBool _ | JNum _ => Normal JUndefined
  | JStr s => Normal (if String.eqb k "length" then JNum (Z.of_nat (String.length s))
                      else JUndefined)
  | JArr xs => Normal (if String.eqb k "length" then JNum (Z.of_nat (length xs))
                       else JUndefined)
  | JObj fs => Normal (lookup_field k fs)
  end.

(** [v[0]] *)
Definition item0 (v : Value) : Completion Value :=
  match v with
  | JUndefined => TypeError "Cannot read property '0' of undefined"
  | JNull => TypeError "Cannot read property '0' of null"
  | JArr (x :: _) => Normal x
  | JObj fs => Normal (lookup_field "0" fs)
  | _ => Normal JUndefined
  end.

(** [typeof v.every === 'function']: of the values above only arrays have the
    method; a property of a parsed object is never a function. *)
Definition has_every (v : Value) : bool :=
  match v with
  | JArr _ => true
  | _ => false
  end.

Definition is_string (v : Value) : bool :=
  match v with
  | JStr _ => true
  | _ => false
  end.

(** [s !== v] for a string [s] *)
Definition differs_from_string (s : string) (v : Value) : bool :=
  match v with
  | JStr t => negb (String.eqb s t)
  | _ => true
  end.

(** ** The data model *)

Module STATES.
Definition UPDATED := "updated".
Definition SKIPPED := "skipped".
Definition EDITED := "locally edited".
Definition MAYBE_EDITED := "may be locally edited".
Definition SAME_MD5 := "up-to-date: MD5 is unchanged".
Definition SAME_CODE := "up-to-date: code sections are unchanged".
Definition SAME_VERSION := "up-to-date: version is unchanged".
Definition ERROR_MD5 := "error: MD5 is invalid".
Definition ERROR_JSON := "error: JSON is invalid".
Definition ERROR_VERSION := "error: version is older than installed style".
End STATES.

Record UsercssData := { version : string }.

(** A locally installed style, with the properties the updater reads. *)
Record Style := {
  style_id : Z;
  name : string;
  originalName : option string;
  originalDigest : option string;
  originalMd5 : option string;
  md5Url : option string;
  updateUrl : option string;
  usercssData : option UsercssData;
  sourceCode : option string;
  sections : Value;
}.

(** [download(url)] and [download(url, {body: null})] *)
Record Request := { url : option string; nullBody : bool }.

Inductive ApiMethod := saveStyle_method | saveUsercss_method.

(** What [checkStyle] resolves with and posts to the port. *)
Inductive Info :=
  | InfoUpdated (saved : Value)
  | InfoError (error : Reason) (style : Style).

Inductive Fn := FnCheckAllStyles | FnFlushQueue.

#[global] Instance Fn_eq_dec : EqDecision Fn.
Proof. solve_decision. Defined.

(** The calls made to the collaborators, in order. *)
Inductive Call :=
  | CallDownload (r : Request)
  | CallBuildCode (json : Value)
  | CallSaveStyle (doc : Value)
  | CallApi (m : ApiMethod) (doc : Value)
  | CallPostMessage (msg : Info)
  | CallSetTimeout (ms : Z)
  | CallDebounce (fn : Fn) (delay : Z)
  | CallUnregister (fn : Fn)
  | CallStorageGet (key : string)
  | CallStorageSet (key : string) (lines : list string).

Record LogItem := { text : string; time : string }.

(** The module's variables and the trace of calls. *)
Record State := {
  lastUpdateTime : Z;
  checkingAll : bool;
  logQueue : list LogItem;
  logLastWriteTime : Z;
  retrying : gset (option Z);
  calls : list Call;
}.

Definition set_logQueue (q : list LogItem) (s : State) : State :=
  {| lastUpdateTime := lastUpdateTime s; checkingAll := checkingAll s;
     logQueue := q; logLastWriteTime := logLastWriteTime s;
     retrying := retrying s; calls := calls s |}.

Definition set_logLastWriteTime (t : Z) (s : State) : State :=
  {| lastUpdateTime := lastUpdateTime s; checkingAll := checkingAll s;
     logQueue := logQueue s; logLastWriteTime := t;
     retrying := retrying s; calls := calls s |}.

Definition set_retrying (r : gset (option Z)) (s : State) : State :=
  {| lastUpdateTime := lastUpdateTime s; checkingAll := checkingAll s;
     logQueue := logQueue s; logLastWriteTime := logLastWriteTime s;
     retrying := r; calls := calls s |}.

Definition call (c : Call) (s : State) : State :=
  {| lastUpdateTime := lastUpdateTime s; checkingAll := checkingAll s;
     logQueue := logQueue s; logLastWriteTime := logLastWriteTime s;
     retrying := retrying s; calls := (calls s ++ [c])%list |}.

(** The globals the module uses and does not define, and the readings of
    its environment. *)
Record Globals := {
  (** [Date.now()] and [new Date().toLocaleString()] *)
  now : Z;
  localeNow : string;
  (** [prefs.get('updateInterval')], in hours *)
  updateInterval : Z;
  calcStyleDigest : Style -> string;
  (** [styleSectionsEqual({sections: a}, {sections: b})] reads nothing but the
      [sections] of its two arguments, which is what the model hands it *)
  styleSectionsEqual : Value -> Value -> bool;
  getStyleWithNoCode : Style -> Style;
  semverCompare : string -> Value -> Z;
  (** the answer to the n-th download of the run: its text, or the status
      the promise is rejected with *)
  download_response : nat -> Request -> Completion string;
  tryJSONparse : string -> Value;
  usercss_buildMeta : string -> Completion Value;
  usercss_buildCode : Value -> Completion Value;
  API_METHODS : ApiMethod -> Value -> Completion Value;
}.

(** ** Promises *)

Inductive Settled (A : Type) :=
  | Fulfilled (a : A)
  | Rejected (e : Reason)
  | Pending.
Arguments Fulfilled {A} a.
Arguments Rejected {A} e.
Arguments Pending {A}.

Definition Async (A : Type) : Type := State -> Settled A * State.

Definition resolve {A} (a : A) : Async A := fun s => (Fulfilled a, s).
Definition reject {A} (text : string) : Async A := fun s => (Rejected (Message text), s).

(** [p.then(k)] *)
Definition andThen {A B} (p : Async A) (k : A -> Async B) : Async B :=
  fun s =>
    match p s with
    | (Fulfilled a, s') => k a s'
    | (Rejected e, s') => (Rejected e, s')
    | (Pending, s') => (Pending, s')
    end.

(** [p.catch(h)] *)
Definition catch {A} (p : Async A) (h : Reason -> Async A) : Async A :=
  fun s =>
    match p s with
    | (Rejected e, s') => h e s'
    | r => r
    end.

(** A handler that completes synchronously: a thrown exception rejects. *)
Definition settle {A} (c : Completion A) : Async A :=
  fun s =>
    match c with
    | Normal a => (Fulfilled a, s)
    | Throw e => (Rejected e, s)
    end.

Definition effect (c : Call) : Async unit := fun s => (Fulfilled tt, call c s).

Notation "'await' x := p 'in' k" := (andThen p (fun x => k))
  (at level 10, x name, p at level 100, k at level 200, only parsing) : js_scope.
Notation "p ;; k" := (andThen p (fun _ => k))
  (at level 100, k at level 200, right associativity, only parsing) : js_scope.
Notation "p >>= f" := (andThen p f) (at level 50, left associativity, only parsing).

(** The value a step of [checkStyle]'s chain hands to the next one: the style
    the chain starts from, the digest, or [undefined]. *)
Inductive Carried :=
  | TheStyle
  | Digest (d : string)
  | Nothing.

(** ** The module *)

Definition is_status (n : Z) (error : Reason) : bool :=
  match error with
  | Status c => Z.eqb c n
  | _ => false
  end.

(** [o === s] for an optional string property [o] *)
Definition same_string (o : option string) (s : string) : bool :=
  match o with
  | Some t => String.eqb t s
  | None => false
  end.

(** What a template literal makes of a rejection reason: a number in
    decimal, a string as it is, and an error through
    [Error.prototype.toString], which gives the message alone when the name
    is empty, the name alone when the message is empty, and otherwise both,
    separated by a colon and a space. *)
Definition reason_text (e : Reason) : string :=
  match e with
  | Status c => pretty c
  | Message t => t
  | Exception n m =>
      if String.eqb n "" then m
      else if String.eqb m "" then n
      else n ++ ": " ++ m
  end.

(** The downloads made so far. *)
Definition downloads (cs : list Call) : list Request :=
  flat_map (fun c => match c with CallDownload r => [r] | _ => [] end) cs.

(** The documents handed to the store, by either way. *)
Definition store_writes (cs : list Call) : list Value :=
  flat_map (fun c => match c with
                     | CallSaveStyle d => [d]
                     | CallApi _ d => [d]
                     | _ => []
                     end) cs.

(** The documents handed to [usercss.buildCode]. *)
Definition builds (cs : list Call) : list Value :=
  flat_map (fun c => match c with CallBuildCode j => [j] | _ => [] end) cs.

(** A method call on the [retrying] set that returns a value. A [Set] answers
    [has]; it has no [get] (that is a method of [Map]), so [retrying.get] is
    [undefined] and calling it throws. *)
Definition Set_method (set : gset (option Z)) (method : string) (arg : option Z)
  : Completion Value :=
  if String.eqb method "has" then Normal (JBool (bool_decide (arg ∈ set)))
  else TypeError ("retrying." ++ method ++ " is not a function").

(** What [chrome.storage.local.get] hands to [flushQueue]. *)
Record Stored := { lines : option (list string) }.

Definition last_is_truthy (ls : list string) : bool :=
  match last ls with
  | Some l => negb (String.eqb l "")
  | None => false
  end.

(** [maybeSave(json = {})]: the parameter's default *)
Definition or_empty_object (json : Value) : Value :=
  match json with
  | JUndefined => JObj []
  | _ => json
  end.

Section Updater.
Variable G : Globals.

Definition debounce (fn : Fn) (delay : Z) (s : State) : State :=
  call (CallDebounce fn delay) s.

Definition debounce_unregister (fn : Fn) (s : State) : State :=
  call (CallUnregister fn) s.

Definition schedule (s : State) : State :=
  let interval := updateInterval G * 60 * 60 * 1000 in
  if negb (Z.eqb interval 0) then
    let elapsed := Z.max 0 (now G - lastUpdateTime s) in
    debounce FnCheckAllStyles (Z.max 10000 (interval - elapsed)) s
  else
    debounce_unregister FnCheckAllStyles s.

Definition log (text : string) : Async unit :=
  fun s =>
    let s := set_logQueue (logQueue s ++ [{| text := text; time := localeNow G |}])%list s in
    (Fulfilled tt,
     debounce FnFlushQueue
       (if negb (String.eqb text "") && checkingAll s then 1000 else 0) s).

Definition flushQueue (stored : option Stored) (s : State) : Completion State :=
  match stored with
  | None => Normal (call (CallStorageGet "updateLog") s)
  | Some stored =>
      let lines := default [] (lines stored) in
      match logQueue s with
      | [] =>
          if Z.gtb (now G - logLastWriteTime s) 11000
          then TypeError "Cannot read property 'time' of undefined"
          else TypeError "Cannot read property 'text' of undefined"
      | first :: rest =>
          let time :=
            if Z.gtb (now G - logLastWriteTime s) 11000 then time first ++ " " else "" in
          let '(queue, lines) :=
            if String.eqb (text first) ""
            then (rest, if last_is_truthy lines then (lines ++ [""])%list else lines)
            else (first :: rest, lines) in
          let lines := drop (length lines - 1000)%nat lines in
          let lines :=
            (lines ++ [time +:+ match queue with q0 :: _ => text q0 | [] => "" end])%list in
          let lines := (lines ++ map text (tail queue))%list in
          Normal (set_logQueue []
                    (set_logLastWriteTime (now G)
                       (call (CallStorageSet "updateLog" lines) s)))
      end
  end.

Definition download (r : Request) : Async string :=
  fun s =>
    settle (download_response G (length (downloads (calls s))) r)
           (call (CallDownload r) s).

(** [json && json.sections && json.sections.length
     && typeof json.sections.every === 'function'
     && typeof json.sections[0].code === 'string'] *)
Definition styleJSONseemsValid (json : Value) : Completion bool :=
  (if negb (truthy json) then Normal false else
   try sections := prop json "sections" in
   if negb (truthy sections) then Normal false else
   try len := prop sections "length" in
   if negb (truthy len) then Normal false else
   if negb (has_every sections) then Normal false else
   try first := item0 sections in
   try code := prop first "code" in
   Normal (is_string code))%js.

Section checkStyle.
Variables (id : option Z) (style : Style) (port save ignoreDigest : bool).

Definition postMessage (info : Info) : Async unit :=
  if port then effect (CallPostMessage info) else resolve tt.

Definition reportSuccess (saved : Value) : Async Info :=
  (log (STATES.UPDATED ++ " #" ++ pretty (style_id style) ++ " " ++ name style) ;;
   let info := InfoUpdated saved in
   postMessage info ;;
   resolve info)%js.

(** [error === 503 && !retrying.get(id)] *)
Definition retry_condition (error : Reason) (s : State) : Completion bool :=
  (if is_status 503 error
   then try got := Set_method (retrying s) "get" id in Normal (negb (truthy got))
   else Normal false)%js.

(** The retry branch: [retrying.add(id)], then a promise resolved from a
    timer. The timer's callback calls [checkStyle(id, style, port, save,
    ignoreDigest)], whose only parameter is destructured from [id]: for an
    [id] that is [undefined] the call throws, for a number it leaves
    [style] undefined and [style.usercssData] throws; either way inside
    the callback, before [resolve], so the promise stays pending. *)
Definition retry_later : Async Info :=
  fun s =>
    (Pending, call (CallSetTimeout 1000) (set_retrying ({[id]} ∪ retrying s) s)).

Definition reportFailure (error : Reason) : Async Info :=
  fun s =>
    match retry_condition error s with
    | Throw e => (Rejected e, s)
    | Normal true => retry_later s
    | Normal false =>
        let error := if is_status 0 error then Message "server unreachable" else error in
        (log (STATES.SKIPPED ++ " (" ++ reason_text error ++ ") #"
                ++ pretty (style_id style) ++ " " ++ name style) ;;
         let info := InfoError error (getStyleWithNoCode G style) in
         postMessage info ;;
         resolve info)%js s
    end.

(** [calcStyleDigest(style)], the first step of the chain *)
Definition digestStep (_ : Carried) : Async Carried :=
  resolve (Digest (calcStyleDigest G style)).

(** [style.originalDigest && style.originalDigest !== digest] *)
Definition locallyEdited (digest : Carried) : bool :=
  truthy_str (originalDigest style)
  && negb (match digest with
           | Digest d => same_string (originalDigest style) d
           | _ => false
           end).

Definition checkIfEdited (digest : Carried) : Async Carried :=
  if locallyEdited digest then reject STATES.EDITED else resolve Nothing.

(** [md5.length] is the length of the string; the model counts its
    characters, which agrees for a hash in hexadecimal digits. *)
Definition maybeUpdateUSO : Async Value :=
  (await md5 := download {| url := md5Url style; nullBody := false |} in
   if String.eqb md5 "" || negb (Nat.eqb (String.length md5) 32)
   then reject STATES.ERROR_MD5
   else if same_string (originalMd5 style) md5
           && truthy_str (originalDigest style) && negb ignoreDigest
   then reject STATES.SAME_MD5
   else
     await text := download {| url := updateUrl style; nullBody := true |} in
     resolve (tryJSONparse G text))%js.

Definition buildCode (json : Value) : Async Value :=
  (effect (CallBuildCode json) ;; settle (usercss_buildCode G json))%js.

Definition maybeUpdateUsercss : Async Value :=
  (await text := download {| url := updateUrl style; nullBody := false |} in
   await json := settle (usercss_buildMeta G text) in
   await version :=
     settle (match usercssData style with
             | Some u => Normal (version u)
             | None => TypeError "Cannot destructure property 'version' of undefined"
             end) in
   await newVersion :=
     settle (try u := prop json "usercssData" in prop u "version") in
   match Z.sgn (semverCompare G version newVersion) with
   | 0 =>
       if negb ignoreDigest then reject STATES.SAME_VERSION
       else if same_string (sourceCode style) text then reject STATES.SAME_CODE
       else buildCode json
   | 1 => reject STATES.ERROR_VERSION
   | _ => buildCode json
   end)%js.

(** [!json.usercssData && !styleJSONseemsValid(json)], negated *)
Definition passes_validation (json : Value) : Completion bool :=
  (try u := prop json "usercssData" in
   if truthy u then Normal true else styleJSONseemsValid json)%js.

(** The assignments of [maybeSave] on the candidate's properties. *)
Definition stamp (fs : list (string * Value)) : list (string * Value) :=
  let fs := assign_field "id" (JNum (style_id style)) fs in
  let fs := assign_field "updateDate" (JNum (now G)) fs in
  let fs := assign_field "reason" (JStr "update") fs in
  let fs := remove_field "enabled" fs in
  if negb (same_string (originalName style) (name style))
     && differs_from_string (name style) (lookup_field "name" fs)
  then remove_field "name" fs
  else assign_field "originalName" (lookup_field "name" fs) fs.

Definition maybeSave (json : Value) : Async Value :=
  (let json := or_empty_object json in
   await valid := settle (passes_validation json) in
   if negb valid then reject STATES.ERROR_JSON else
   match json with
   | JObj fs =>
       let fs := stamp fs in
       if styleSectionsEqual G (lookup_field "sections" fs) (sections style) then
         effect (CallSaveStyle (JObj (assign_field "reason" (JStr "update-digest") fs))) ;;
         reject STATES.SAME_CODE
       else if negb (truthy_str (originalDigest style)) && negb ignoreDigest then
         reject STATES.MAYBE_EDITED
       else if save then
         let m := if truthy (lookup_field "usercssData" fs)
                  then saveUsercss_method else saveStyle_method in
         effect (CallApi m (JObj fs)) ;; settle (API_METHODS G m (JObj fs))
       else resolve (JObj fs)
   | _ =>
       (* not reached: only an object passes the validation; in strict mode
          the assignment to a property of a primitive throws *)
       settle (TypeError "Cannot create property 'id'")
   end)%js.

(** The chain up to the save-guard: the edit guard, then the fetch of
    the remote candidate. A step that is [undefined] (the ['skip'] index)
    hands its value on. *)
Definition candidate : Async Value :=
  resolve TheStyle
    >>= (if negb ignoreDigest then digestStep else resolve)
    >>= (if negb ignoreDigest then checkIfEdited else resolve)
    >>= (fun _ => match usercssData style with
                  | Some _ => maybeUpdateUsercss
                  | None => maybeUpdateUSO
                  end).

(** The chain before [.catch(reportFailure)]. *)
Definition attempt : Async Info :=
  candidate >>= maybeSave >>= reportSuccess.

Definition checkStyle : Async Info :=
  catch attempt reportFailure.

End checkStyle.
End Updater.

(** ** The debounce registry *)

(** Modelled from the spec: [debounce] and [debounce.unregister] are defined
    outside this module. "Triggers are debounced: only the most recent pending
    trigger survives if re-armed before it fires"; unregistering "cancels any
    pending trigger". [pending fn cs] is the delay [fn] is armed with after the
    calls [cs], if any. *)
Definition rearm (fn : Fn) (armed : option Z) (c : Call) : option Z :=
  match c with
  | CallDebounce f delay => if decide (f = fn) then Some delay else armed
  | CallUnregister f => if decide (f = fn) then None else armed
  | _ => armed
  end.

Definition pending_from (fn : Fn) (armed : option Z) (cs : list Call) : option Z :=
  fold_left (rearm fn) cs armed.

Definition pending (fn : Fn) (cs : list Call) : option Z :=
  pending_from fn None cs.

(** The lines [flushQueue] wrote to the storage, flush by flush. *)
Definition written (cs : list Call) : list (list string) :=
  flat_map (fun c => match c with CallStorageSet _ ls => [ls] | _ => [] end) cs.

(** The messages posted to the port. *)
Definition posted (cs : list Call) : list Info :=
  flat_map (fun c => match c with CallPostMessage i => [i] | _ => [] end) cs.

(** The timers set with [setTimeout]. *)
Definition timeouts (cs : list Call) : list Z :=
  flat_map (fun c => match c with CallSetTimeout ms => [ms] | _ => [] end) cs.

(** The [sections] of a candidate document. *)
Definition sections_of (json : Value) : Value :=
  match or_empty_object json with
  | JObj fs => lookup_field "sections" fs
  | _ => JUndefined
  end.

(** The result [checkStyle] reports for a skipped style. *)
Definition skipped (G : Globals) (style : Style) (reason : string) : Settled Info :=
  Fulfilled (InfoError (Message reason) (getStyleWithNoCode G style)).

(** ** Sample inputs *)

Module Sample.

Definition md5 : string := "0123456789abcdef0123456789abcdef".

(** A style installed from a legacy (MD5) origin, as in the spec's scenario. *)
Definition legacy : Style :=
  {| style_id := 1; name := "Dark"; originalName := Some "Dark";
     originalDigest := Some "D1"; originalMd5 := Some md5;
     md5Url := Some "https://example.org/1.md5";
     updateUrl := Some "https://example.org/1.json";
     usercssData := None; sourceCode := None;
     sections := JArr [JObj [("code", JStr "a{}")]] |}.

(** The same style with a stored MD5 that is not 32 characters long. *)
Definition legacy_short_md5 : Style :=
  {| style_id := 1; name := "Dark"; originalName := Some "Dark";
     originalDigest := Some "D1"; originalMd5 := Some "abc";
     md5Url := Some "https://example.org/1.md5";
     updateUrl := Some "https://example.org/1.json";
     usercssData := None; sourceCode := None;
     sections := JArr [JObj [("code", JStr "a{}")]] |}.

(** The same style before its digest was ever computed. *)
Definition legacy_no_digest : Style :=
  {| style_id := 1; name := "Dark"; originalName := Some "Dark";
     originalDigest := None; originalMd5 := Some md5;
     md5Url := Some "https://example.org/1.md5";
     updateUrl := Some "https://example.org/1.json";
     usercssData := None; sourceCode := None;
     sections := JArr [JObj [("code", JStr "a{}")]] |}.

Definition versioned : Style :=
  {| style_id := 2; name := "Light"; originalName := Some "Light";
     originalDigest := Some "D1"; originalMd5 := None;
     md5Url := None;
     updateUrl := Some "https://example.org/2.user.css";
     usercssData := Some {| version := "1.0.0" |};
     sourceCode := Some "/* v1.0.0 */ a{}";
     sections := JArr [JObj [("code", JStr "a{}")]] |}.

Definition document (code : string) : Value :=
  JObj [("name", JStr "Dark"); ("sections", JArr [JObj [("code", JStr code)]])].

Definition metadata (v : string) : Value :=
  JObj [("usercssData", JObj [("version", JStr v)]);
        ("sections", JArr [JObj [("code", JStr "b{}")]])].

(** Sections are equal when both are one section with the same code. *)
Definition one_section_equal (a b : Value) : bool :=
  match a, b with
  | JArr [JObj [(_, JStr x)]], JArr [JObj [(_, JStr y)]] => String.eqb x y
  | _, _ => false
  end.

(** Orders the three versions the samples use. *)
Definition compare_versions (a : string) (b : Value) : Z :=
  match b with
  | JStr "1.0.0" => 0
  | JStr "0.9.0" => 1
  | _ => -1
  end.

(** A world in which the style's digest is [digest], the downloads are
    answered by [answer] and every parsed or built document is [doc]. *)
Definition world (digest : string) (hours : Z)
    (answer : nat -> Request -> Completion string) (doc : Value) : Globals :=
  {| now := 1500000000000; localeNow := "7/14/2017, 4:40:00 AM";
     updateInterval := hours;
     calcStyleDigest := fun _ => digest;
     styleSectionsEqual := one_section_equal;
     getStyleWithNoCode := fun st => st;
     semverCompare := compare_versions;
     download_response := answer;
     tryJSONparse := fun _ => doc;
     usercss_buildMeta := fun _ => Normal doc;
     usercss_buildCode := fun j => Normal j;
     API_METHODS := fun _ d => Normal d |}.

Definition always (t : string) : nat -> Request -> Completion string :=
  fun _ _ => Normal t.

(** The first download is answered by [first], the later ones by [rest]. *)
Definition serves (first rest : string) : nat -> Request -> Completion string :=
  fun n _ => match n with O => Normal first | _ => Normal rest end.

(** The first download fails with status [code], the later ones give [t]. *)
Definition fails_once (code : Z) (t : string) : nat -> Request -> Completion string :=
  fun n _ => match n with O => Throw (Status code) | _ => Normal t end.

Definition fails_always (code : Z) : nat -> Request -> Completion string :=
  fun _ _ => Throw (Status code).

Definition idle : State :=
  {| lastUpdateTime := 1499990000000; checkingAll := false; logQueue := [];
     logLastWriteTime := 0; retrying := ∅; calls := [] |}.

Definition entry (t : string) : LogItem :=
  {| text := t; time := "7/14/2017, 4:40:00 AM" |}.

Definition queued (q : list LogItem) : State :=
  {| lastUpdateTime := 1499990000000; checkingAll := false; logQueue := q;
     logLastWriteTime := 0; retrying := ∅; calls := [] |}.

End Sample.

(** ** Properties of the data operations *)

Lemma lookup_remove_ne k k' fs :
  k <> k' -> lookup_field k (remove_field k' fs) = lookup_field k fs.
Proof.
  intros Hne. induction fs as [|[k0 v] fs IH]; simpl; [reflexivity|].
  destruct (String.eqb_spec k' k0) as [->|Hk'].
  - rewrite IH. destruct (String.eqb_spec k k0); [contradiction | reflexivity].
  - simpl. rewrite IH. reflexivity.
Qed.

Lemma lookup_remove_eq k fs : lookup_field k (remove_field k fs) = JUndefined.
Proof.
  induction fs as [|[k0 v] fs IH]; simpl; [reflexivity|].
  destruct (String.eqb_spec k k0) as [->|Hk]; [exact IH|].
  simpl. destruct (String.eqb_spec k k0); [contradiction | exact IH].
Qed.

Lemma lookup_assign_eq k v fs : lookup_field k (assign_field k v fs) = v.
Proof. unfold assign_field. simpl. now rewrite String.eqb_refl. Qed.

Lemma lookup_assign_ne k k' v fs :
  k <> k' -> lookup_field k (assign_field k' v fs) = lookup_field k fs.
Proof.
  intros Hne. unfold assign_field. simpl.
  destruct (String.eqb_spec k k'); [contradiction|]. now apply lookup_remove_ne.
Qed.

Section StampFacts.
Variables (G : Globals) (style : Style).

(** The stamping leaves every property but its own six alone. *)
Lemma stamp_other k fs :
  k <> "id" -> k <> "updateDate" -> k <> "reason" -> k <> "enabled" ->
  k <> "name" -> k <> "originalName" ->
  lookup_field k (stamp G style fs) = lookup_field k fs.
Proof.
  intros. unfold stamp.
  destruct (_ && _);
    rewrite ?lookup_remove_ne, ?lookup_assign_ne, ?lookup_remove_ne,
      ?lookup_assign_ne, ?lookup_assign_ne, ?lookup_assign_ne by assumption;
    reflexivity.
Qed.

Lemma stamp_sections fs :
  lookup_field "sections" (stamp G style fs) = lookup_field "sections" fs.
Proof. apply stamp_other; discriminate. Qed.

Lemma stamp_usercssData fs :
  lookup_field "usercssData" (stamp G style fs) = lookup_field "usercssData" fs.
Proof. apply stamp_other; discriminate. Qed.

Lemma stamp_reason fs :
  lookup_field "reason" (stamp G style fs) = JStr "update".
Proof.
  unfold stamp.
  destruct (_ && _);
    rewrite ?lookup_remove_ne, ?lookup_assign_ne, ?lookup_remove_ne by discriminate;
    apply lookup_assign_eq.
Qed.

Lemma stamp_id fs :
  lookup_field "id" (stamp G style fs) = JNum (style_id style).
Proof.
  unfold stamp.
  destruct (_ && _);
    rewrite ?lookup_remove_ne, ?lookup_assign_ne, ?lookup_remove_ne,
      ?lookup_assign_ne, ?lookup_assign_ne by discriminate;
    apply lookup_assign_eq.
Qed.

Lemma stamp_enabled fs :
  lookup_field "enabled" (stamp G style fs) = JUndefined.
Proof.
  unfold stamp.
  destruct (_ && _);
    rewrite ?lookup_remove_ne, ?lookup_assign_ne by discriminate;
    apply lookup_remove_eq.
Qed.
End StampFacts.

(** ** What a report does to the state *)

(** The line logged for a skipped style. *)
Definition skip_line (style : Style) (error : Reason) : string :=
  STATES.SKIPPED ++ " (" ++ reason_text error ++ ") #"
    ++ pretty (style_id style) ++ " " ++ name style.

(** The messages that reach the port, if there is one. *)
Definition to_port (port : bool) (info : Info) : list Info :=
  if port then [info] else [].

(** From [s] to [s'] one line was logged and [msgs] were posted, and nothing
    else happened: no download, no store write, no build, no timer, and the
    retry set is as it was. *)
Record Reported (G : Globals) (s s' : State) (line : string) (msgs : list Info) : Prop := {
  reported_log : logQueue s' = (logQueue s ++ [{| text := line; time := localeNow G |}])%list;
  reported_posted : posted (calls s') = (posted (calls s) ++ msgs)%list;
  reported_downloads : downloads (calls s') = downloads (calls s);
  reported_writes : store_writes (calls s') = store_writes (calls s);
  reported_builds : builds (calls s') = builds (calls s);
  reported_timeouts : timeouts (calls s') = timeouts (calls s);
  reported_retrying : retrying s' = retrying s;
}.

(** Unfolds the promise combinators and the steps that only chain them. *)
Ltac run :=
  repeat progress
    (unfold download, digestStep, checkIfEdited, buildCode,
       andThen, catch, resolve, reject, settle, effect; simpl).

Ltac trace_simpl :=
  unfold downloads, store_writes, builds, timeouts, posted, written; simpl;
  rewrite ?flat_map_app; simpl; rewrite ?app_nil_r; try reflexivity.

Section Reports.
Variables (G : Globals) (id : option Z) (style : Style) (port : bool).

Lemma reported_after_log_and_post s line info :
  Reported G s
    (snd (postMessage port info (snd (log G line s)))) line (to_port port info).
Proof.
  unfold postMessage, log, to_port.
  destruct port; split; simpl; trace_simpl.
Qed.

(** A failure other than a 503 is reported, with status 0 spelled out. *)
Lemma reportFailure_reports error s :
  is_status 503 error = false ->
  exists s',
    reportFailure G id style port error s
    = (Fulfilled (InfoError (if is_status 0 error then Message "server unreachable" else error)
                            (getStyleWithNoCode G style)), s')
    /\ Reported G s s'
         (skip_line style (if is_status 0 error then Message "server unreachable" else error))
         (to_port port (InfoError (if is_status 0 error then Message "server unreachable"
                                   else error) (getStyleWithNoCode G style))).
Proof.
  intros H503. unfold reportFailure, retry_condition. rewrite H503.
  set (e' := if is_status 0 error then _ else _).
  set (info := InfoError e' _).
  exists (snd (postMessage port info (snd (log G (skip_line style e') s)))).
  split; [|apply reported_after_log_and_post].
  unfold andThen, postMessage, log, resolve, effect, skip_line. destruct port; reflexivity.
Qed.

(** A 503: the retry condition calls [retrying.get], which a [Set] does not
    have, so the handler throws before anything is logged or scheduled. *)
Lemma reportFailure_503 s :
  reportFailure G id style port (Status 503) s
  = (Rejected (Exception "TypeError" "retrying.get is not a function"), s).
Proof. reflexivity. Qed.

Lemma reportSuccess_reports saved s :
  exists s',
    reportSuccess G style port saved s = (Fulfilled (InfoUpdated saved), s')
    /\ Reported G s s'
         (STATES.UPDATED ++ " #" ++ pretty (style_id style) ++ " " ++ name style)
         (to_port port (InfoUpdated saved)).
Proof.
  set (line := STATES.UPDATED ++ _).
  exists (snd (postMessage port (InfoUpdated saved) (snd (log G line s)))).
  split; [|apply reported_after_log_and_post].
  unfold reportSuccess, andThen, postMessage, log, resolve, effect. destruct port; reflexivity.
Qed.

End Reports.

(** ** The edit guard *)

Lemma locallyEdited_true style d :
  truthy_str (originalDigest style) = true ->
  originalDigest style <> Some d ->
  locallyEdited style (Digest d) = true.
Proof.
  intros Hset Hne. unfold locallyEdited. rewrite Hset. simpl.
  destruct (originalDigest style) as [o|]; [|discriminate]. simpl.
  destruct (String.eqb_spec o d) as [->|]; [now elim Hne | reflexivity].
Qed.

Lemma locallyEdited_false style d :
  originalDigest style = Some d ->
  locallyEdited style (Digest d) = false.
Proof.
  intros H. unfold locallyEdited. rewrite H. simpl.
  rewrite String.eqb_refl. apply andb_false_r.
Qed.

(** With [ignoreDigest] unset, an edited style never gets past the guard. *)
Lemma candidate_of_edited G style s :
  locallyEdited style (Digest (calcStyleDigest G style)) = true ->
  candidate G style false s = (Rejected (Message STATES.EDITED), s).
Proof.
  intros H. unfold candidate, andThen, resolve, digestStep, checkIfEdited. simpl.
  rewrite H. reflexivity.
Qed.

(** A rejected candidate is what the whole attempt is rejected with. *)
Lemma attempt_of_rejected G style port save ignoreDigest s e s1 :
  candidate G style ignoreDigest s = (Rejected e, s1) ->
  attempt G style port save ignoreDigest s = (Rejected e, s1).
Proof. intros H. unfold attempt, andThen. rewrite H. reflexivity. Qed.

(** C1. A style whose [originalDigest] is set and differs from the digest of
    its current code is skipped as [EDITED] when [ignoreDigest] is unset: the
    check resolves with that reason, logs the skip and posts it to the port,
    and calls neither the store (no full save, no digest refresh) nor the
    network. *)
Theorem edited_style_is_skipped G id style port save s :
  truthy_str (originalDigest style) = true ->
  originalDigest style <> Some (calcStyleDigest G style) ->
  exists s',
    checkStyle G id style port save false s = (skipped G style STATES.EDITED, s')
    /\ store_writes (calls s') = store_writes (calls s)
    /\ downloads (calls s') = downloads (calls s)
    /\ Reported G s s' (skip_line style (Message STATES.EDITED))
         (to_port port (InfoError (Message STATES.EDITED) (getStyleWithNoCode G style))).
Proof.
  intros Hset Hne.
  pose proof (candidate_of_edited G style s (locallyEdited_true _ _ Hset Hne)) as Hc.
  apply (attempt_of_rejected G style port save) in Hc.
  destruct (reportFailure_reports G id style port (Message STATES.EDITED) s eq_refl)
    as (s' & Hr & Hrep).
  exists s'. unfold checkStyle, catch. rewrite Hc.
  split; [exact Hr|]. split; [apply Hrep|]. split; [apply Hrep | exact Hrep].
Qed.

Lemma edited_style_is_skipped_witness :
  exists s',
    checkStyle (Sample.world "D2" 24 (Sample.always Sample.md5) JUndefined)
      (Some 1) Sample.legacy true true false Sample.idle
    = (skipped (Sample.world "D2" 24 (Sample.always Sample.md5) JUndefined)
         Sample.legacy STATES.EDITED, s')
    /\ store_writes (calls s') = []
    /\ downloads (calls s') = []
    /\ Reported (Sample.world "D2" 24 (Sample.always Sample.md5) JUndefined)
         Sample.idle s' "skipped (locally edited) #1 Dark"
         [InfoError (Message STATES.EDITED) Sample.legacy].
Proof.
  apply (edited_style_is_skipped
           (Sample.world "D2" 24 (Sample.always Sample.md5) JUndefined)
           (Some 1) Sample.legacy true true Sample.idle).
  - reflexivity.
  - discriminate.
Defined.

(** ** Failures *)

(** C9. When the chain of a check is rejected with anything but a 503, the
    check itself resolves, with an error result for the style stripped of its
    code, and one line is logged: ['skipped (' + shown + ') #' + id + ' ' +
    name]. A transport status 0 is replaced by ['server unreachable'], in
    the result and in the logged line alike. Any other reason is reported as
    it is, and shown as the template literal renders it: another status in
    decimal, a string unchanged, an error as its name, a colon and a space,
    and its message, or as the one of the two that is not empty. *)
Theorem failure_is_reported G id style port save ignoreDigest s s1 error :
  attempt G style port save ignoreDigest s = (Rejected error, s1) ->
  error <> Status 503 ->
  exists reported shown s',
    checkStyle G id style port save ignoreDigest s
    = (Fulfilled (InfoError reported (getStyleWithNoCode G style)), s')
    /\ Reported G s1 s'
         ("skipped (" ++ shown ++ ") #" ++ pretty (style_id style) ++ " " ++ name style)
         (to_port port (InfoError reported (getStyleWithNoCode G style)))
    /\ (error = Status 0 ->
          reported = Message "server unreachable" /\ shown = "server unreachable")
    /\ (error <> Status 0 -> reported = error)
    /\ (forall c, error = Status c -> c <> 0 -> shown = pretty c)
    /\ (forall t, error = Message t -> shown = t)
    /\ (forall n m, error = Exception n m ->
          (n = "" -> shown = m)
          /\ (n <> "" -> m = "" -> shown = n)
          /\ (n <> "" -> m <> "" -> shown = n ++ ": " ++ m)).
Proof.
  intros Hrun H503.
  assert (is_status 503 error = false) as Hs.
  { destruct error as [c| |]; simpl; try reflexivity.
    apply Z.eqb_neq. congruence. }
  destruct (reportFailure_reports G id style port error s1 Hs) as (s' & Hr & Hrep).
  exists (if is_status 0 error then Message "server unreachable" else error),
         (reason_text (if is_status 0 error then Message "server unreachable" else error)),
         s'.
  split; [|split; [|split; [|split; [|split; [|split]]]]].
  - unfold checkStyle, catch. rewrite Hrun. exact Hr.
  - exact Hrep.
  - intros ->. split; reflexivity.
  - intros H0. destruct error as [c| |]; simpl; try reflexivity.
    destruct (Z.eqb_spec c 0) as [->|]; [now elim H0 | reflexivity].
  - intros c -> Hc. simpl. destruct (Z.eqb_spec c 0) as [->|]; [now elim Hc | reflexivity].
  - intros t ->. reflexivity.
  - intros n m ->. simpl. split; [|split].
    + intros ->. reflexivity.
    + intros Hn ->. destruct (String.eqb_spec n ""); [now elim Hn | reflexivity].
    + intros Hn Hm. destruct (String.eqb_spec n ""); [now elim Hn|].
      destruct (String.eqb_spec m ""); [now elim Hm | reflexivity].
Qed.

Lemma failure_is_reported_witness :
  exists reported shown s',
    checkStyle (Sample.world "D1" 24 (Sample.fails_always 0) JUndefined)
      (Some 1) Sample.legacy true true false Sample.idle
    = (Fulfilled (InfoError reported Sample.legacy), s')
    /\ Reported (Sample.world "D1" 24 (Sample.fails_always 0) JUndefined)
         (call (CallDownload {| url := md5Url Sample.legacy; nullBody := false |}) Sample.idle)
         s'
         ("skipped (" ++ shown ++ ") #1 Dark")
         [InfoError reported Sample.legacy]
    /\ (Status 0 = Status 0 ->
          reported = Message "server unreachable" /\ shown = "server unreachable")
    /\ (Status 0 <> Status 0 -> reported = Status 0)
    /\ (forall c, Status 0 = Status c -> c <> 0 -> shown = pretty c)
    /\ (forall t, Status 0 = Message t -> shown = t)
    /\ (forall n m, Status 0 = Exception n m ->
          (n = "" -> shown = m)
          /\ (n <> "" -> m = "" -> shown = n)
          /\ (n <> "" -> m <> "" -> shown = n ++ ": " ++ m)).
Proof.
  apply (failure_is_reported
           (Sample.world "D1" 24 (Sample.fails_always 0) JUndefined)
           (Some 1) Sample.legacy true true false Sample.idle
           (call (CallDownload {| url := md5Url Sample.legacy; nullBody := false |}) Sample.idle)
           (Status 0)).
  - reflexivity.
  - discriminate.
Defined.

(** The lines of four failures of the legacy sample: an unreachable server,
    a status 404, an error thrown with an empty message, which is shown by
    its name alone, and an error with a message. *)
Example failure_scenarios :
  map text (logQueue (snd (reportFailure
    (Sample.world "D1" 24 (Sample.always "") JUndefined)
    (Some 1) Sample.legacy false (Status 0) Sample.idle)))
  = ["skipped (server unreachable) #1 Dark"]
  /\ map text (logQueue (snd (reportFailure
       (Sample.world "D1" 24 (Sample.always "") JUndefined)
       (Some 1) Sample.legacy false (Status 404) Sample.idle)))
     = ["skipped (404) #1 Dark"]
  /\ map text (logQueue (snd (reportFailure
       (Sample.world "D1" 24 (Sample.always "") JUndefined)
       (Some 1) Sample.legacy false (Exception "Error" "") Sample.idle)))
     = ["skipped (Error) #1 Dark"]
  /\ map text (logQueue (snd (reportFailure
       (Sample.world "D1" 24 (Sample.always "") JUndefined)
       (Some 1) Sample.legacy false (Exception "SyntaxError" "Unexpected token") Sample.idle)))
     = ["skipped (SyntaxError: Unexpected token) #1 Dark"].
Proof. repeat split. Qed.

(** C6, what the code does. A chain rejected with 503 makes [reportFailure]
    evaluate [retrying.get(id)] on a [Set]: the handler throws, so the check
    is rejected with a [TypeError] in the state the chain left; no retry is
    scheduled, nothing is logged and nothing is reported. *)
Theorem service_unavailable_rejects_the_check G id style port save ignoreDigest s s1 :
  attempt G style port save ignoreDigest s = (Rejected (Status 503), s1) ->
  checkStyle G id style port save ignoreDigest s
  = (Rejected (Exception "TypeError" "retrying.get is not a function"), s1).
Proof.
  intros Hrun. unfold checkStyle, catch. rewrite Hrun. apply reportFailure_503.
Qed.

Lemma service_unavailable_rejects_the_check_witness :
  checkStyle (Sample.world "D1" 24 (Sample.fails_once 503 Sample.md5) JUndefined)
    (Some 1) Sample.legacy true true false Sample.idle
  = (Rejected (Exception "TypeError" "retrying.get is not a function"),
     call (CallDownload {| url := md5Url Sample.legacy; nullBody := false |}) Sample.idle).
Proof.
  apply (service_unavailable_rejects_the_check
           (Sample.world "D1" 24 (Sample.fails_once 503 Sample.md5) JUndefined)
           (Some 1) Sample.legacy true true false Sample.idle).
  reflexivity.
Defined.

(** ** The legacy path *)

(** The request for the style's MD5, and the one for the whole document. *)
Definition md5_request (style : Style) : Request :=
  {| url := md5Url style; nullBody := false |}.

Definition document_request (style : Style) : Request :=
  {| url := updateUrl style; nullBody := true |}.

Definition source_request (style : Style) : Request :=
  {| url := updateUrl style; nullBody := false |}.

Lemma downloads_call_download r s :
  downloads (calls (call (CallDownload r) s)) = (downloads (calls s) ++ [r])%list.
Proof. trace_simpl. Qed.

Lemma store_writes_call_download r s :
  store_writes (calls (call (CallDownload r) s)) = store_writes (calls s).
Proof. trace_simpl. Qed.

Lemma length_32_not_empty md5 : String.length md5 = 32%nat -> String.eqb md5 "" = false.
Proof. destruct md5; [discriminate | reflexivity]. Qed.

(** The MD5 step on an unedited legacy style whose remote MD5 is well formed
    and unchanged: one download, then [SAME_MD5]. *)
Lemma candidate_of_unchanged_md5 G style s md5 :
  usercssData style = None ->
  truthy_str (originalDigest style) = true ->
  originalDigest style = Some (calcStyleDigest G style) ->
  download_response G (length (downloads (calls s))) (md5_request style) = Normal md5 ->
  String.length md5 = 32%nat ->
  originalMd5 style = Some md5 ->
  candidate G style false s
  = (Rejected (Message STATES.SAME_MD5), call (CallDownload (md5_request style)) s).
Proof.
  intros Hlegacy Hset Hsame Hanswer Hlen Hmd5.
  unfold candidate. run. rewrite (locallyEdited_false _ _ Hsame), Hlegacy. run.
  unfold maybeUpdateUSO. run. fold (md5_request style).
  rewrite Hanswer. run.
  rewrite (length_32_not_empty _ Hlen), Hlen, Hmd5, Hset. simpl.
  rewrite String.eqb_refl. reflexivity.
Qed.

(** C2, as the code has it. For a legacy style that passes the edit guard
    (its [originalDigest] is set and equals the digest of its current code),
    when the fetched MD5 is 32 characters long and equals the stored
    [originalMd5] and [ignoreDigest] is unset, the check is skipped as
    [SAME_MD5]: the MD5 is the only download of the run (the whole document
    is not fetched) and the store is not called. *)
Theorem unchanged_md5_is_skipped G id style port save s md5 :
  usercssData style = None ->
  truthy_str (originalDigest style) = true ->
  originalDigest style = Some (calcStyleDigest G style) ->
  download_response G (length (downloads (calls s))) (md5_request style) = Normal md5 ->
  String.length md5 = 32%nat ->
  originalMd5 style = Some md5 ->
  exists s',
    checkStyle G id style port save false s = (skipped G style STATES.SAME_MD5, s')
    /\ downloads (calls s') = (downloads (calls s) ++ [md5_request style])%list
    /\ store_writes (calls s') = store_writes (calls s).
Proof.
  intros Hlegacy Hset Hsame Hanswer Hlen Hmd5.
  pose proof (candidate_of_unchanged_md5 G style s md5
                Hlegacy Hset Hsame Hanswer Hlen Hmd5) as Hc.
  apply (attempt_of_rejected G style port save) in Hc.
  destruct (reportFailure_reports G id style port (Message STATES.SAME_MD5)
              (call (CallDownload (md5_request style)) s) eq_refl) as (s' & Hr & Hrep).
  exists s'. unfold checkStyle, catch. rewrite Hc. split; [exact Hr|]. split.
  - rewrite (reported_downloads _ _ _ _ _ Hrep). apply downloads_call_download.
  - rewrite (reported_writes _ _ _ _ _ Hrep). apply store_writes_call_download.
Qed.

Lemma unchanged_md5_is_skipped_witness :
  exists s',
    checkStyle (Sample.world "D1" 24 (Sample.always Sample.md5) JUndefined)
      (Some 1) Sample.legacy true true false Sample.idle
    = (skipped (Sample.world "D1" 24 (Sample.always Sample.md5) JUndefined)
         Sample.legacy STATES.SAME_MD5, s')
    /\ downloads (calls s') = [md5_request Sample.legacy]
    /\ store_writes (calls s') = [].
Proof.
  apply (unchanged_md5_is_skipped
           (Sample.world "D1" 24 (Sample.always Sample.md5) JUndefined)
           (Some 1) Sample.legacy true true Sample.idle Sample.md5);
    reflexivity.
Defined.

(** C2 as stated fails in two ways. First input: the stored and the fetched
    MD5 are both ["abc"], [originalDigest] is set (and matches the current
    digest), [ignoreDigest] is unset; the length check comes first and the
    outcome is [ERROR_MD5]. Second input: the spec's own scenario with the
    local copy edited (digest ["D2"] against a stored ["D1"]); the remote MD5
    still equals the stored one, but the edit guard comes first, the outcome
    is [EDITED] and nothing is downloaded. *)
Lemma unchanged_md5_counterexample :
  (usercssData Sample.legacy_short_md5 = None
   /\ truthy_str (originalDigest Sample.legacy_short_md5) = true
   /\ download_response (Sample.world "D1" 24 (Sample.always "abc") JUndefined) 0
        (md5_request Sample.legacy_short_md5) = Normal "abc"
   /\ originalMd5 Sample.legacy_short_md5 = Some "abc"
   /\ fst (checkStyle (Sample.world "D1" 24 (Sample.always "abc") JUndefined)
             (Some 1) Sample.legacy_short_md5 true true false Sample.idle)
      = skipped (Sample.world "D1" 24 (Sample.always "abc") JUndefined)
          Sample.legacy_short_md5 STATES.ERROR_MD5
   /\ STATES.ERROR_MD5 <> STATES.SAME_MD5)
  /\
  (usercssData Sample.legacy = None
   /\ truthy_str (originalDigest Sample.legacy) = true
   /\ download_response (Sample.world "D2" 24 (Sample.always Sample.md5) JUndefined) 0
        (md5_request Sample.legacy) = Normal Sample.md5
   /\ originalMd5 Sample.legacy = Some Sample.md5
   /\ fst (checkStyle (Sample.world "D2" 24 (Sample.always Sample.md5) JUndefined)
             (Some 1) Sample.legacy true true false Sample.idle)
      = skipped (Sample.world "D2" 24 (Sample.always Sample.md5) JUndefined)
          Sample.legacy STATES.EDITED
   /\ downloads (calls (snd (checkStyle
                               (Sample.world "D2" 24 (Sample.always Sample.md5) JUndefined)
                               (Some 1) Sample.legacy true true false Sample.idle))) = []
   /\ STATES.EDITED <> STATES.SAME_MD5).
Proof.
  split.
  - repeat split; try reflexivity. discriminate.
  - repeat split; try reflexivity. discriminate.
Qed.

(** ** The versioned path *)

(** Only [maybeUpdateUsercss] builds: the save-guard and the reports do not. *)
Lemma maybeSave_builds G style save ignoreDigest json s :
  builds (calls (snd (maybeSave G style save ignoreDigest json s))) = builds (calls s).
Proof.
  unfold maybeSave, andThen, settle.
  destruct (passes_validation (or_empty_object json)) as [[|]|e]; simpl; try reflexivity.
  destruct (or_empty_object json) as [| | | | | |fs]; simpl; try reflexivity.
  destruct (styleSectionsEqual G _ _); simpl; [trace_simpl|].
  destruct (_ && _); simpl; [reflexivity|].
  destruct save; simpl; [|reflexivity].
  unfold effect. simpl. destruct (API_METHODS G _ _); trace_simpl.
Qed.

Lemma is_status_true n e : is_status n e = true -> e = Status n.
Proof. destruct e as [c| |]; simpl; try discriminate. intros H%Z.eqb_eq. now subst. Qed.

Lemma reportFailure_builds G id style port e s :
  builds (calls (snd (reportFailure G id style port e s))) = builds (calls s).
Proof.
  destruct (is_status 503 e) eqn:H503.
  - apply is_status_true in H503 as ->. reflexivity.
  - destruct (reportFailure_reports G id style port e s H503) as (s' & -> & Hrep).
    apply Hrep.
Qed.

Lemma checkStyle_builds G id style port save ignoreDigest s :
  builds (calls (snd (checkStyle G id style port save ignoreDigest s)))
  = builds (calls (snd (candidate G style ignoreDigest s))).
Proof.
  unfold checkStyle, catch, attempt, andThen.
  destruct (candidate G style ignoreDigest s) as [[json|e|] s1]; simpl.
  - pose proof (maybeSave_builds G style save ignoreDigest json s1) as Hsave.
    destruct (maybeSave G style save ignoreDigest json s1) as [[saved|e|] s2]; simpl in *.
    + destruct (reportSuccess_reports G style port saved s2) as (s' & -> & Hrep).
      simpl. rewrite <- Hsave. apply Hrep.
    + rewrite reportFailure_builds. exact Hsave.
    + exact Hsave.
  - apply reportFailure_builds.
  - reflexivity.
Qed.

(** The version a remote document announces: [json.usercssData.version]. *)
Definition announced_version (json : Value) : Completion Value :=
  (try u := prop json "usercssData" in prop u "version")%js.

(** The edit guard lets the check through: it is skipped, or the style is
    not edited. *)
Definition guard_passes (G : Globals) (style : Style) (ignoreDigest : bool) : bool :=
  ignoreDigest || negb (locallyEdited style (Digest (calcStyleDigest G style))).

Section VersionedPath.
Variables (G : Globals) (style : Style) (ignoreDigest : bool).
Variables (u : UsercssData) (text : string) (json newVersion : Value) (s : State).
Hypothesis Hversioned : usercssData style = Some u.
Hypothesis Hguard : guard_passes G style ignoreDigest = true.
Hypothesis Hanswer :
  download_response G (length (downloads (calls s))) (source_request style) = Normal text.
Hypothesis Hmeta : usercss_buildMeta G text = Normal json.
Hypothesis Hannounced : announced_version json = Normal newVersion.

(** Past the guard, the candidate is what the version comparison makes of the
    downloaded source. *)
Lemma candidate_of_versioned :
  candidate G style ignoreDigest s
  = match Z.sgn (semverCompare G (version u) newVersion) with
    | 0 =>
        if negb ignoreDigest
        then (Rejected (Message STATES.SAME_VERSION),
              call (CallDownload (source_request style)) s)
        else if same_string (sourceCode style) text
        then (Rejected (Message STATES.SAME_CODE),
              call (CallDownload (source_request style)) s)
        else buildCode G json (call (CallDownload (source_request style)) s)
    | 1 => (Rejected (Message STATES.ERROR_VERSION),
            call (CallDownload (source_request style)) s)
    | _ => buildCode G json (call (CallDownload (source_request style)) s)
    end.
Proof.
  assert (candidate G style ignoreDigest s = maybeUpdateUsercss G style ignoreDigest s) as ->.
  { unfold candidate, guard_passes in *. rewrite Hversioned.
    destruct ignoreDigest; simpl in *; run; [reflexivity|].
    apply negb_true_iff in Hguard. rewrite Hguard. reflexivity. }
  unfold maybeUpdateUsercss, andThen, download. fold (source_request style).
  rewrite Hanswer. simpl. rewrite Hmeta. simpl. rewrite Hversioned. simpl.
  unfold announced_version in Hannounced. rewrite Hannounced. simpl.
  destruct (Z.sgn _) as [|[]|]; try reflexivity.
  destruct ignoreDigest; simpl; [|reflexivity].
  destruct (same_string _ _); reflexivity.
Qed.

Lemma builds_after_buildCode s1 :
  builds (calls (snd (buildCode G json s1))) = (builds (calls s1) ++ [json])%list.
Proof. unfold buildCode. run. destruct (usercss_buildCode G json); trace_simpl. Qed.

End VersionedPath.

Lemma same_string_true o t : same_string o t = true <-> o = Some t.
Proof.
  destruct o as [x|]; simpl; [|split; discriminate].
  rewrite String.eqb_eq. split; congruence.
Qed.

Lemma same_string_false o t : o <> Some t -> same_string o t = false.
Proof.
  intros H. destruct (same_string o t) eqn:E; [|reflexivity].
  apply same_string_true in E. contradiction.
Qed.

(** A candidate rejected with one of the [STATES] reasons ends the check as
    a skip with that reason, and the rest of the run only reports it. *)
Lemma rejected_candidate_is_skipped G id style port save ignoreDigest s s1 m :
  candidate G style ignoreDigest s = (Rejected (Message m), s1) ->
  exists s',
    checkStyle G id style port save ignoreDigest s = (skipped G style m, s')
    /\ Reported G s1 s' (skip_line style (Message m))
         (to_port port (InfoError (Message m) (getStyleWithNoCode G style))).
Proof.
  intros Hc. apply (attempt_of_rejected G style port save) in Hc.
  destruct (reportFailure_reports G id style port (Message m) s1 eq_refl) as (s' & Hr & Hrep).
  exists s'. unfold checkStyle, catch. rewrite Hc. split; [exact Hr | exact Hrep].
Qed.

Lemma builds_call_download r s :
  builds (calls (call (CallDownload r) s)) = builds (calls s).
Proof. trace_simpl. Qed.

(** C3. For a usercss style whose check reaches the version comparison (the
    edit guard lets it through, the source is downloaded and its metadata
    announce a version), with [sign] the sign of [semverCompare(local,
    remote)]:
    - equal versions without [ignoreDigest] end as [SAME_VERSION];
    - equal versions with [ignoreDigest] and a remote text identical to the
      stored [sourceCode] end as [SAME_CODE];
    - an older remote version ends as [ERROR_VERSION], whatever
      [ignoreDigest] is;
    and none of these builds anything. The remote document is handed to the
    build in the two remaining cases only: a newer remote version, or equal
    versions with [ignoreDigest] and a differing text. *)
Theorem version_comparison_decides
    G id style port save ignoreDigest u text json newVersion s :
  usercssData style = Some u ->
  guard_passes G style ignoreDigest = true ->
  download_response G (length (downloads (calls s))) (source_request style) = Normal text ->
  usercss_buildMeta G text = Normal json ->
  announced_version json = Normal newVersion ->
  (Z.sgn (semverCompare G (version u) newVersion) = 0 -> ignoreDigest = false ->
     fst (checkStyle G id style port save ignoreDigest s) = skipped G style STATES.SAME_VERSION
     /\ builds (calls (snd (checkStyle G id style port save ignoreDigest s)))
        = builds (calls s))
  /\ (Z.sgn (semverCompare G (version u) newVersion) = 0 -> ignoreDigest = true ->
      sourceCode style = Some text ->
        fst (checkStyle G id style port save ignoreDigest s) = skipped G style STATES.SAME_CODE
        /\ builds (calls (snd (checkStyle G id style port save ignoreDigest s)))
           = builds (calls s))
  /\ (Z.sgn (semverCompare G (version u) newVersion) = 1 ->
        fst (checkStyle G id style port save ignoreDigest s)
        = skipped G style STATES.ERROR_VERSION
        /\ builds (calls (snd (checkStyle G id style port save ignoreDigest s)))
           = builds (calls s))
  /\ (Z.sgn (semverCompare G (version u) newVersion) = -1 ->
        builds (calls (snd (checkStyle G id style port save ignoreDigest s)))
        = (builds (calls s) ++ [json])%list)
  /\ (Z.sgn (semverCompare G (version u) newVersion) = 0 -> ignoreDigest = true ->
      sourceCode style <> Some text ->
        builds (calls (snd (checkStyle G id style port save ignoreDigest s)))
        = (builds (calls s) ++ [json])%list).
Proof.
  intros Hversioned Hguard Hanswer Hmeta Hannounced.
  pose proof (candidate_of_versioned G style ignoreDigest u text json newVersion s
                Hversioned Hguard Hanswer Hmeta Hannounced) as Hc.
  assert (forall m,
    candidate G style ignoreDigest s
    = (Rejected (Message m), call (CallDownload (source_request style)) s) ->
    fst (checkStyle G id style port save ignoreDigest s) = skipped G style m
    /\ builds (calls (snd (checkStyle G id style port save ignoreDigest s)))
       = builds (calls s)) as Hskip.
  { intros m Hm.
    destruct (rejected_candidate_is_skipped G id style port save ignoreDigest s _ m Hm)
      as (s' & -> & Hrep).
    simpl. split; [reflexivity|].
    rewrite (reported_builds _ _ _ _ _ Hrep). apply builds_call_download. }
  assert (candidate G style ignoreDigest s
          = buildCode G json (call (CallDownload (source_request style)) s) ->
          builds (calls (snd (checkStyle G id style port save ignoreDigest s)))
          = (builds (calls s) ++ [json])%list) as Hbuild.
  { intros Hb. rewrite checkStyle_builds, Hb, builds_after_buildCode, builds_call_download.
    reflexivity. }
  split; [|split; [|split; [|split]]].
  - intros Hsign Hignore. apply Hskip. rewrite Hc, Hsign, Hignore. reflexivity.
  - intros Hsign Hignore Hsame. apply Hskip. rewrite Hc, Hsign, Hignore.
    apply same_string_true in Hsame. rewrite Hsame. reflexivity.
  - intros Hsign. apply Hskip. rewrite Hc, Hsign. reflexivity.
  - intros Hsign. apply Hbuild. rewrite Hc, Hsign. reflexivity.
  - intros Hsign Hignore Hdiff. apply Hbuild. rewrite Hc, Hsign, Hignore.
    rewrite (same_string_false _ _ Hdiff). reflexivity.
Qed.

Lemma version_comparison_decides_witness :
  fst (checkStyle (Sample.world "D1" 24 (Sample.always "/* v0.9.0 */ b{}")
                     (Sample.metadata "0.9.0"))
         (Some 2) Sample.versioned true true true Sample.idle)
  = skipped (Sample.world "D1" 24 (Sample.always "/* v0.9.0 */ b{}")
               (Sample.metadata "0.9.0"))
      Sample.versioned STATES.ERROR_VERSION
  /\ builds (calls (snd (checkStyle (Sample.world "D1" 24 (Sample.always "/* v0.9.0 */ b{}")
                                       (Sample.metadata "0.9.0"))
                           (Some 2) Sample.versioned true true true Sample.idle)))
     = [].
Proof.
  apply (version_comparison_decides
           (Sample.world "D1" 24 (Sample.always "/* v0.9.0 */ b{}") (Sample.metadata "0.9.0"))
           (Some 2) Sample.versioned true true true {| version := "1.0.0" |}
           "/* v0.9.0 */ b{}" (Sample.metadata "0.9.0") (JStr "0.9.0") Sample.idle
           eq_refl eq_refl eq_refl eq_refl eq_refl).
  reflexivity.
Defined.

(** The spec's scenarios for the versioned path, run on the model. *)
Example same_version_scenario :
  fst (checkStyle (Sample.world "D1" 24 (Sample.always "/* v1.0.0 */ b{}")
                     (Sample.metadata "1.0.0"))
         (Some 2) Sample.versioned false true false Sample.idle)
  = skipped (Sample.world "D1" 24 (Sample.always "/* v1.0.0 */ b{}")
               (Sample.metadata "1.0.0"))
      Sample.versioned STATES.SAME_VERSION.
Proof. reflexivity. Qed.

Example same_code_scenario :
  fst (checkStyle (Sample.world "D1" 24 (Sample.always "/* v1.0.0 */ a{}")
                     (Sample.metadata "1.0.0"))
         (Some 2) Sample.versioned false true true Sample.idle)
  = skipped (Sample.world "D1" 24 (Sample.always "/* v1.0.0 */ a{}")
               (Sample.metadata "1.0.0"))
      Sample.versioned STATES.SAME_CODE.
Proof. reflexivity. Qed.

Example newer_version_scenario :
  checkStyle (Sample.world "D1" 24 (Sample.always "/* v1.1.0 */ b{}")
                (Sample.metadata "1.1.0"))
    (Some 2) Sample.versioned false false false Sample.idle
  = (Fulfilled (InfoUpdated
       (JObj (stamp (Sample.world "D1" 24 (Sample.always "/* v1.1.0 */ b{}")
                       (Sample.metadata "1.1.0"))
                Sample.versioned
                [("usercssData", JObj [("version", JStr "1.1.0")]);
                 ("sections", JArr [JObj [("code", JStr "b{}")]])]))),
     {| lastUpdateTime := 1499990000000; checkingAll := false;
        logQueue := [Sample.entry "updated #2 Light"];
        logLastWriteTime := 0; retrying := ∅;
        calls := [CallDownload (source_request Sample.versioned);
                  CallBuildCode (Sample.metadata "1.1.0");
                  CallDebounce FnFlushQueue 0] |}).
Proof. reflexivity. Qed.

(** ** The save-guard *)

(** Only an object passes the validation. *)
Lemma valid_is_object json :
  passes_validation json = Normal true -> exists fs, json = JObj fs.
Proof.
  unfold passes_validation, styleJSONseemsValid.
  destruct json as [| |b|n|t|xs|fs]; simpl; try discriminate.
  - destruct b; discriminate.
  - destruct (negb (Z.eqb n 0)); discriminate.
  - destruct (negb (String.eqb t "")); discriminate.
  - intros _. now exists fs.
Qed.

Section SaveGuard.
Variables (G : Globals) (style : Style) (save ignoreDigest : bool).
Variables (json : Value) (s : State).
Hypothesis Hvalid : passes_validation (or_empty_object json) = Normal true.

(** Equal sections: the digest refresh is handed to [saveStyle], whatever
    [save] is, and the step is rejected with [SAME_CODE]. *)
Lemma maybeSave_of_equal_sections :
  styleSectionsEqual G (sections_of json) (sections style) = true ->
  exists fs,
    or_empty_object json = JObj fs
    /\ maybeSave G style save ignoreDigest json s
       = (Rejected (Message STATES.SAME_CODE),
          call (CallSaveStyle
                  (JObj (assign_field "reason" (JStr "update-digest") (stamp G style fs)))) s).
Proof.
  intros Hequal. destruct (valid_is_object _ Hvalid) as [fs Hfs].
  exists fs. split; [exact Hfs|].
  unfold maybeSave, sections_of in *. run. rewrite Hvalid. simpl.
  rewrite Hfs in *. rewrite stamp_sections, Hequal. reflexivity.
Qed.

(** Differing sections, no digest yet and no [ignoreDigest]: the step is
    rejected with [MAYBE_EDITED] and the state is untouched. *)
Lemma maybeSave_of_unknown_digest :
  styleSectionsEqual G (sections_of json) (sections style) = false ->
  truthy_str (originalDigest style) = false ->
  ignoreDigest = false ->
  maybeSave G style save ignoreDigest json s = (Rejected (Message STATES.MAYBE_EDITED), s).
Proof.
  intros Hdiffer Hnone ->. destruct (valid_is_object _ Hvalid) as [fs Hfs].
  unfold maybeSave, sections_of in *. run. rewrite Hvalid. simpl.
  rewrite Hfs in *. rewrite stamp_sections, Hdiffer, Hnone. reflexivity.
Qed.

End SaveGuard.

Lemma store_writes_call_saveStyle doc s :
  store_writes (calls (call (CallSaveStyle doc) s)) = (store_writes (calls s) ++ [doc])%list.
Proof. trace_simpl. Qed.

(** C4. When the chain reaches the save-guard with a candidate that passes
    its validation and whose sections equal the local ones, the check is
    skipped as [SAME_CODE] (never reported as updated) and exactly one
    document is handed to the store, by [saveStyle] itself: the stamped
    candidate (local id, the candidate's sections) with the reason
    ['update-digest']. This holds for every value of [save], [false]
    included. *)
Theorem equal_sections_refresh_the_digest G id style port save ignoreDigest json s s1 :
  candidate G style ignoreDigest s = (Fulfilled json, s1) ->
  passes_validation (or_empty_object json) = Normal true ->
  styleSectionsEqual G (sections_of json) (sections style) = true ->
  exists patch s',
    checkStyle G id style port save ignoreDigest s = (skipped G style STATES.SAME_CODE, s')
    /\ store_writes (calls s') = (store_writes (calls s1) ++ [patch])%list
    /\ In (CallSaveStyle patch) (calls s')
    /\ prop patch "reason" = Normal (JStr "update-digest")
    /\ prop patch "id" = Normal (JNum (style_id style))
    /\ sections_of patch = sections_of json.
Proof.
  intros Hcandidate Hvalid Hequal.
  destruct (maybeSave_of_equal_sections G style save ignoreDigest json s1 Hvalid Hequal)
    as (fs & Hfs & Hsave).
  set (patch := JObj (assign_field "reason" (JStr "update-digest") (stamp G style fs))) in *.
  destruct (reportFailure_reports G id style port (Message STATES.SAME_CODE)
              (call (CallSaveStyle patch) s1) eq_refl) as (s' & Hr & Hrep).
  exists patch, s'. split; [|split; [|split; [|split; [|split]]]].
  - unfold checkStyle, catch, attempt, andThen. rewrite Hcandidate, Hsave. exact Hr.
  - rewrite (reported_writes _ _ _ _ _ Hrep). apply store_writes_call_saveStyle.
  - unfold reportFailure, retry_condition in Hr. simpl in Hr.
    unfold andThen, log, postMessage, effect, resolve in Hr.
    destruct port; injection Hr as <-; simpl; rewrite ?in_app_iff; simpl; tauto.
  - unfold patch, prop. now rewrite lookup_assign_eq.
  - unfold patch, prop. rewrite lookup_assign_ne by discriminate. now rewrite stamp_id.
  - unfold sections_of at 2. rewrite Hfs.
    change (sections_of patch)
      with (lookup_field "sections"
              (assign_field "reason" (JStr "update-digest") (stamp G style fs))).
    rewrite lookup_assign_ne by discriminate. apply stamp_sections.
Qed.

Lemma equal_sections_refresh_the_digest_witness :
  exists patch s',
    checkStyle (Sample.world "D1" 24 (Sample.serves Sample.md5 "{...}")
                  (Sample.document "a{}"))
      (Some 1) Sample.legacy false false true Sample.idle
    = (skipped (Sample.world "D1" 24 (Sample.serves Sample.md5 "{...}")
                  (Sample.document "a{}"))
         Sample.legacy STATES.SAME_CODE, s')
    /\ store_writes (calls s') = [patch]
    /\ In (CallSaveStyle patch) (calls s')
    /\ prop patch "reason" = Normal (JStr "update-digest")
    /\ prop patch "id" = Normal (JNum 1)
    /\ sections_of patch = JArr [JObj [("code", JStr "a{}")]].
Proof.
  apply (equal_sections_refresh_the_digest
           (Sample.world "D1" 24 (Sample.serves Sample.md5 "{...}") (Sample.document "a{}"))
           (Some 1) Sample.legacy false false true (Sample.document "a{}") Sample.idle
           (call (CallDownload (document_request Sample.legacy))
              (call (CallDownload (md5_request Sample.legacy)) Sample.idle)));
    reflexivity.
Defined.

(** C5. When the chain reaches the save-guard with a candidate that passes
    its validation and whose sections differ from the local ones, a style
    without [originalDigest] checked without [ignoreDigest] is skipped as
    [MAYBE_EDITED], and the store is not called. *)
Theorem unknown_digest_may_be_edited G id style port save json s s1 :
  candidate G style false s = (Fulfilled json, s1) ->
  passes_validation (or_empty_object json) = Normal true ->
  styleSectionsEqual G (sections_of json) (sections style) = false ->
  truthy_str (originalDigest style) = false ->
  exists s',
    checkStyle G id style port save false s = (skipped G style STATES.MAYBE_EDITED, s')
    /\ store_writes (calls s') = store_writes (calls s1).
Proof.
  intros Hcandidate Hvalid Hdiffer Hnone.
  pose proof (maybeSave_of_unknown_digest G style save false json s1
                Hvalid Hdiffer Hnone eq_refl) as Hsave.
  destruct (reportFailure_reports G id style port (Message STATES.MAYBE_EDITED) s1 eq_refl)
    as (s' & Hr & Hrep).
  exists s'. split.
  - unfold checkStyle, catch, attempt, andThen. rewrite Hcandidate, Hsave. exact Hr.
  - apply Hrep.
Qed.

Lemma unknown_digest_may_be_edited_witness :
  exists s',
    checkStyle (Sample.world "D1" 24 (Sample.serves Sample.md5 "{...}")
                  (Sample.document "b{}"))
      (Some 1) Sample.legacy_no_digest false true false Sample.idle
    = (skipped (Sample.world "D1" 24 (Sample.serves Sample.md5 "{...}")
                  (Sample.document "b{}"))
         Sample.legacy_no_digest STATES.MAYBE_EDITED, s')
    /\ store_writes (calls s') = [].
Proof.
  apply (unknown_digest_may_be_edited
           (Sample.world "D1" 24 (Sample.serves Sample.md5 "{...}") (Sample.document "b{}"))
           (Some 1) Sample.legacy_no_digest false true (Sample.document "b{}") Sample.idle
           (call (CallDownload (document_request Sample.legacy_no_digest))
              (call (CallDownload (md5_request Sample.legacy_no_digest)) Sample.idle)));
    reflexivity.
Defined.

(** C10. The two saves of [maybeSave] and the reason each document carries.
    A valid candidate whose sections equal the local ones is stamped with
    the reason ['update'] and then handed to [saveStyle] with the reason
    overwritten by ['update-digest'], whatever [save] is; that is the one
    call made. A valid candidate whose sections differ, the digest being
    known or ignored, is handed with [save] set to [API_METHODS.saveUsercss]
    or [API_METHODS.saveStyle] as stamped, with the reason ['update']; that
    is the one call made. And whatever [maybeSave] is given, it calls the
    store at most once, a [saveStyle] call only on equal sections with the
    reason ['update-digest'] over the stamped ['update'], an [API_METHODS]
    call only on differing sections with [save] set and the reason
    ['update']. *)
Theorem saved_documents_carry_their_reason G style save ignoreDigest json s :
  (passes_validation (or_empty_object json) = Normal true ->
   styleSectionsEqual G (sections_of json) (sections style) = true ->
   exists fs,
     or_empty_object json = JObj fs
     /\ lookup_field "reason" (stamp G style fs) = JStr "update"
     /\ fst (maybeSave G style save ignoreDigest json s) = Rejected (Message STATES.SAME_CODE)
     /\ calls (snd (maybeSave G style save ignoreDigest json s))
        = (calls s
           ++ [CallSaveStyle
                 (JObj (assign_field "reason" (JStr "update-digest") (stamp G style fs)))])%list
     /\ prop (JObj (assign_field "reason" (JStr "update-digest") (stamp G style fs))) "reason"
        = Normal (JStr "update-digest"))
  /\ (passes_validation (or_empty_object json) = Normal true ->
      styleSectionsEqual G (sections_of json) (sections style) = false ->
      truthy_str (originalDigest style) || ignoreDigest = true ->
      save = true ->
      exists fs,
        or_empty_object json = JObj fs
        /\ calls (snd (maybeSave G style save ignoreDigest json s))
           = (calls s
              ++ [CallApi (if truthy (lookup_field "usercssData" fs)
                           then saveUsercss_method else saveStyle_method)
                    (JObj (stamp G style fs))])%list
        /\ prop (JObj (stamp G style fs)) "reason" = Normal (JStr "update"))
  /\ (exists added,
        calls (snd (maybeSave G style save ignoreDigest json s)) = (calls s ++ added)%list
        /\ (length added <= 1)%nat
        /\ Forall (fun c =>
             match c with
             | CallSaveStyle doc =>
                 styleSectionsEqual G (sections_of json) (sections style) = true
                 /\ exists fs,
                     or_empty_object json = JObj fs
                     /\ lookup_field "reason" (stamp G style fs) = JStr "update"
                     /\ doc = JObj (assign_field "reason" (JStr "update-digest")
                                      (stamp G style fs))
                     /\ prop doc "reason" = Normal (JStr "update-digest")
             | CallApi _ doc =>
                 styleSectionsEqual G (sections_of json) (sections style) = false
                 /\ save = true
                 /\ prop doc "reason" = Normal (JStr "update")
             | _ => False
             end) added).
Proof.
  split; [|split].
  - intros Hvalid Hequal.
    destruct (maybeSave_of_equal_sections G style save ignoreDigest json s Hvalid Hequal)
      as (fs & Hfs & Hsave).
    exists fs. rewrite Hsave. split; [exact Hfs|]. split; [apply stamp_reason|].
    split; [reflexivity|]. split; [reflexivity|].
    unfold prop. now rewrite lookup_assign_eq.
  - intros Hvalid Hdiffer Hguard ->.
    destruct (valid_is_object _ Hvalid) as [fs Hfs].
    exists fs. split; [exact Hfs|]. split.
    + unfold maybeSave, sections_of in *. run. rewrite Hvalid. simpl.
      rewrite Hfs in *. rewrite stamp_sections, Hdiffer, stamp_usercssData.
      assert (negb (truthy_str (originalDigest style)) && negb ignoreDigest = false) as ->.
      { destruct (truthy_str _), ignoreDigest; simpl in *; congruence. }
      run. destruct (API_METHODS G _ _); reflexivity.
    + unfold prop. now rewrite stamp_reason.
  - unfold maybeSave, sections_of, andThen, settle.
    destruct (passes_validation (or_empty_object json)) as [[|]|e]; simpl;
      try (exists []; rewrite app_nil_r; repeat split; [simpl; lia | constructor]).
    destruct (or_empty_object json) as [| | | | | |fs]; simpl;
      try (exists []; rewrite app_nil_r; repeat split; [simpl; lia | constructor]).
    rewrite <- (stamp_sections G style fs).
    destruct (styleSectionsEqual G _ _) eqn:Hequal; simpl.
    + eexists [_]. split; [reflexivity|]. split; [simpl; lia|].
      constructor; [|constructor]. split; [reflexivity|].
      exists fs. repeat split. apply stamp_reason.
    + destruct (_ && _); simpl;
        try (exists []; rewrite app_nil_r; repeat split; [simpl; lia | constructor]).
      destruct save; simpl;
        try (exists []; rewrite app_nil_r; repeat split; [simpl; lia | constructor]).
      eexists [_]. split.
      * unfold effect. simpl. destruct (API_METHODS G _ _); reflexivity.
      * split; [simpl; lia|]. constructor; [|constructor].
        repeat split. simpl. now rewrite stamp_reason.
Qed.

Lemma saved_documents_carry_their_reason_witness :
  (exists fs,
     or_empty_object (Sample.document "a{}") = JObj fs
     /\ lookup_field "reason"
          (stamp (Sample.world "D1" 24 (Sample.always "") JUndefined) Sample.legacy fs)
        = JStr "update"
     /\ fst (maybeSave (Sample.world "D1" 24 (Sample.always "") JUndefined)
               Sample.legacy false false (Sample.document "a{}") Sample.idle)
        = Rejected (Message "up-to-date: code sections are unchanged")
     /\ calls (snd (maybeSave (Sample.world "D1" 24 (Sample.always "") JUndefined)
                      Sample.legacy false false (Sample.document "a{}") Sample.idle))
        = [CallSaveStyle
             (JObj (assign_field "reason" (JStr "update-digest")
                      (stamp (Sample.world "D1" 24 (Sample.always "") JUndefined)
                         Sample.legacy fs)))]
     /\ prop (JObj (assign_field "reason" (JStr "update-digest")
                      (stamp (Sample.world "D1" 24 (Sample.always "") JUndefined)
                         Sample.legacy fs))) "reason"
        = Normal (JStr "update-digest"))
  /\ (exists fs,
        or_empty_object (Sample.document "b{}") = JObj fs
        /\ calls (snd (maybeSave (Sample.world "D1" 24 (Sample.always "") JUndefined)
                         Sample.legacy true false (Sample.document "b{}") Sample.idle))
           = [CallApi saveStyle_method
                (JObj (stamp (Sample.world "D1" 24 (Sample.always "") JUndefined)
                         Sample.legacy fs))]
        /\ prop (JObj (stamp (Sample.world "D1" 24 (Sample.always "") JUndefined)
                         Sample.legacy fs)) "reason"
           = Normal (JStr "update")).
Proof.
  split.
  - apply (proj1 (saved_documents_carry_their_reason
                    (Sample.world "D1" 24 (Sample.always "") JUndefined)
                    Sample.legacy false false (Sample.document "a{}") Sample.idle));
      reflexivity.
  - destruct (proj1 (proj2 (saved_documents_carry_their_reason
                              (Sample.world "D1" 24 (Sample.always "") JUndefined)
                              Sample.legacy true false (Sample.document "b{}") Sample.idle))
                eq_refl eq_refl eq_refl eq_refl) as (fs & Hfs & Hcalls & Hreason).
    exists fs. split; [exact Hfs|]. split; [|exact Hreason].
    rewrite Hcalls. injection Hfs as <-. reflexivity.
Defined.

(** A full update of the legacy sample: the document reaches the store
    through [API_METHODS.saveStyle], with the reason ['update']. *)
Example full_update_scenario :
  exists doc,
    store_writes (calls (snd (checkStyle
      (Sample.world "D1" 24 (Sample.serves "fedcba9876543210fedcba9876543210" "{...}")
         (Sample.document "b{}"))
      (Some 1) Sample.legacy false true false Sample.idle))) = [doc]
    /\ prop doc "reason" = Normal (JStr "update")
    /\ fst (checkStyle
      (Sample.world "D1" 24 (Sample.serves "fedcba9876543210fedcba9876543210" "{...}")
         (Sample.document "b{}"))
      (Some 1) Sample.legacy false true false Sample.idle) = Fulfilled (InfoUpdated doc).
Proof. eexists. repeat split. Qed.

(** ** The scheduler *)

Lemma pending_after_call fn c cs :
  pending fn (cs ++ [c]) = rearm fn (pending fn cs) c.
Proof. unfold pending, pending_from. now rewrite fold_left_app. Qed.

(** C8. With a non-zero interval, [schedule] leaves [checkAllStyles] armed
    with the interval (hours, in milliseconds) minus the time elapsed since
    [lastUpdateTime], and never with less than 10 seconds; the elapsed time
    counts as zero when the clock is behind [lastUpdateTime]. With a zero
    interval nothing is left armed, whatever was pending before. *)
Theorem schedule_arms_the_next_check G s :
  (updateInterval G <> 0 ->
     pending FnCheckAllStyles (calls (schedule G s))
     = Some (Z.max 10000
               (updateInterval G * 3600000 - Z.max 0 (now G - lastUpdateTime s))))
  /\ (updateInterval G <> 0 -> lastUpdateTime s <= now G ->
        exists delay,
          pending FnCheckAllStyles (calls (schedule G s)) = Some delay
          /\ 10000 <= delay
          /\ (10000 <= updateInterval G * 3600000 - (now G - lastUpdateTime s) ->
              delay = updateInterval G * 3600000 - (now G - lastUpdateTime s))
          /\ (updateInterval G * 3600000 - (now G - lastUpdateTime s) <= 10000 ->
              delay = 10000))
  /\ (updateInterval G = 0 -> pending FnCheckAllStyles (calls (schedule G s)) = None).
Proof.
  unfold schedule, debounce, debounce_unregister.
  destruct (Z.eqb_spec (updateInterval G * 60 * 60 * 1000) 0) as [Hzero|Hnonzero]; simpl;
    rewrite pending_after_call; simpl.
  - split; [|split]; try (intros; lia). reflexivity.
  - replace (updateInterval G * 60 * 60 * 1000) with (updateInterval G * 3600000) by lia.
    split; [reflexivity|]. split; [|intros; lia].
    intros _ Hclock. eexists. split; [reflexivity|]. lia.
Qed.

(** The scheduler on the samples: a day's interval checked 10000 seconds
    ago, an interval that has run out, and scheduling switched off while a
    check was pending. *)
Example schedule_scenarios :
  pending FnCheckAllStyles
    (calls (schedule (Sample.world "D1" 24 (Sample.always "") JUndefined) Sample.idle))
  = Some 76400000
  /\ pending FnCheckAllStyles
       (calls (schedule (Sample.world "D1" 1 (Sample.always "") JUndefined) Sample.idle))
     = Some 10000
  /\ pending FnCheckAllStyles
       (calls (debounce FnCheckAllStyles 5000 Sample.idle)) = Some 5000
  /\ pending FnCheckAllStyles
       (calls (schedule (Sample.world "D1" 0 (Sample.always "") JUndefined)
                 (debounce FnCheckAllStyles 5000 Sample.idle)))
     = None.
Proof. repeat split. Qed.

(** ** The log *)

(** The lines a flush appends for the queue [q]; the first carries the time
    stamp, and the blank entry that opens a batch is dropped. *)
Definition batch_of (stamp : string) (q : list LogItem) : list string :=
  let q := match q with
           | first :: rest => if String.eqb (text first) "" then rest else q
           | [] => []
           end in
  ((stamp +:+ match q with q0 :: _ => text q0 | [] => "" end) :: map text (tail q))%list.

(** The separator a flush puts after the stored lines: a blank line, when
    the batch opens with a blank entry and the stored log does not end with
    one. *)
Definition separator_of (old : list string) (q : list LogItem) : list string :=
  match q with
  | first :: _ =>
      if String.eqb (text first) "" && last_is_truthy old then [""] else []
  | [] => []
  end.

(** The [n] most recent lines of a log. *)
Definition most_recent (n : nat) (ls : list string) : list string :=
  drop (length ls - n) ls.

Lemma length_most_recent n ls : length (most_recent n ls) = Nat.min n (length ls).
Proof. unfold most_recent. rewrite length_drop. lia. Qed.

Lemma most_recent_is_suffix n ls : exists older, ls = (older ++ most_recent n ls)%list.
Proof. exists (take (length ls - n) ls). unfold most_recent. now rewrite take_drop. Qed.

Lemma length_batch_of stamp q :
  q <> [] -> (1 <= length (batch_of stamp q) <= length q)%nat.
Proof.
  destruct q as [|first rest]; [congruence|]. intros _. unfold batch_of.
  destruct (String.eqb (text first) ""); simpl.
  - rewrite length_map. destruct rest; simpl; lia.
  - rewrite length_map. lia.
Qed.

(** C7, as the code has it. A flush of a non-empty queue writes the (at most)
    1000 most recent of the lines it was handed (after the separator, if one
    is due), oldest trimmed first, followed by the whole batch in order. The
    trimming comes before the batch is appended, so the written log has
    [min 1000 (lines handed) + (lines of the batch)] lines: more than 1000 as
    soon as 1000 lines were stored. *)
Theorem flush_trims_before_appending G stored s :
  logQueue s <> [] ->
  exists stamp kept,
    flushQueue G (Some stored) s
    = Normal (set_logQueue []
                (set_logLastWriteTime (now G)
                   (call (CallStorageSet "updateLog"
                            (kept ++ batch_of stamp (logQueue s))%list) s)))
    /\ kept = most_recent 1000
                (default [] (lines stored) ++ separator_of (default [] (lines stored))
                                                (logQueue s))%list
    /\ (exists older,
          (default [] (lines stored) ++ separator_of (default [] (lines stored)) (logQueue s)
           = older ++ kept)%list)
    /\ (length kept <= 1000)%nat
    /\ (1 <= length (batch_of stamp (logQueue s)) <= length (logQueue s))%nat
    /\ length (kept ++ batch_of stamp (logQueue s))%list
       = (Nat.min 1000 (length (default [] (lines stored)
                                  ++ separator_of (default [] (lines stored)) (logQueue s))%list)
          + length (batch_of stamp (logQueue s)))%nat
    /\ ((1000 <= length (default [] (lines stored)))%nat ->
        (1000 < length (kept ++ batch_of stamp (logQueue s))%list)%nat).
Proof.
  intros Hqueue.
  pose proof (fun stamp => length_batch_of stamp _ Hqueue) as Hbatch.
  destruct (logQueue s) as [|first rest] eqn:Hq; [congruence|].
  set (old := default [] (lines stored)).
  exists (if Z.gtb (now G - logLastWriteTime s) 11000 then time first +:+ " " else ""),
         (most_recent 1000 (old ++ separator_of old (first :: rest))%list).
  split; [|split; [reflexivity|split; [apply most_recent_is_suffix|
                                       split; [|split; [apply Hbatch|split]]]]].
  - unfold flushQueue. rewrite Hq. fold old. unfold batch_of, separator_of, most_recent.
    destruct (String.eqb (text first) ""); simpl.
    + destruct (last_is_truthy old); simpl; rewrite ?app_nil_r, <- ?app_assoc; reflexivity.
    + rewrite ?app_nil_r, <- ?app_assoc. reflexivity.
  - rewrite length_most_recent. lia.
  - rewrite length_app, length_most_recent. reflexivity.
  - intros Hfull. rewrite length_app, length_most_recent, length_app.
    specialize (Hbatch (if Z.gtb (now G - logLastWriteTime s) 11000
                        then time first +:+ " " else "")). lia.
Qed.

Lemma flush_trims_before_appending_witness :
  exists stamp kept,
    flushQueue (Sample.world "D1" 24 (Sample.always "") JUndefined)
      (Some {| lines := Some (repeat "x" 1000) |}) (Sample.queued [Sample.entry "a"])
    = Normal (set_logQueue []
                (set_logLastWriteTime 1500000000000
                   (call (CallStorageSet "updateLog"
                            (kept ++ batch_of stamp [Sample.entry "a"])%list)
                      (Sample.queued [Sample.entry "a"]))))
    /\ kept = most_recent 1000
                (repeat "x" 1000 ++ separator_of (repeat "x" 1000) [Sample.entry "a"])%list
    /\ (exists older,
          (repeat "x" 1000 ++ separator_of (repeat "x" 1000) [Sample.entry "a"]
           = older ++ kept)%list)
    /\ (length kept <= 1000)%nat
    /\ (1 <= length (batch_of stamp [Sample.entry "a"]) <= 1)%nat
    /\ length (kept ++ batch_of stamp [Sample.entry "a"])%list
       = (Nat.min 1000
            (length (repeat "x" 1000
                       ++ separator_of (repeat "x" 1000) [Sample.entry "a"])%list)
          + length (batch_of stamp [Sample.entry "a"]))%nat
    /\ ((1000 <= length (repeat "x" 1000))%nat ->
        (1000 < length (kept ++ batch_of stamp [Sample.entry "a"])%list)%nat).
Proof.
  apply (flush_trims_before_appending
           (Sample.world "D1" 24 (Sample.always "") JUndefined)
           {| lines := Some (repeat "x" 1000) |} (Sample.queued [Sample.entry "a"])).
  discriminate.
Defined.

(** C7 as stated fails. One line flushed over a stored log of 1000 lines
    leaves 1001 lines, the oldest of them untrimmed; and a single flush of
    1001 queued lines into an empty log writes all 1001. *)
Lemma log_cap_counterexample :
  (exists s' ls,
      flushQueue (Sample.world "D1" 24 (Sample.always "") JUndefined)
        (Some {| lines := Some (repeat "x" 1000) |}) (Sample.queued [Sample.entry "a"])
      = Normal s'
      /\ written (calls s') = [ls]
      /\ length ls = 1001%nat
      /\ ls = ("x" :: repeat "x" 999 ++ ["7/14/2017, 4:40:00 AM a"])%list)
  /\ (exists s' ls,
         flushQueue (Sample.world "D1" 24 (Sample.always "") JUndefined)
           (Some {| lines := None |}) (Sample.queued (repeat (Sample.entry "a") 1001))
         = Normal s'
         /\ written (calls s') = [ls]
         /\ length ls = 1001%nat).
Proof.
  split; eexists; eexists.
  - split; [reflexivity|]. split; [reflexivity|]. split; vm_compute; reflexivity.
  - split; [reflexivity|]. split; [reflexivity|]. vm_compute; reflexivity.
Qed.

(** * Further properties of the module *)

(** ** The validity check of a legacy document *)

(** X1. [styleJSONseemsValid] accepts exactly the objects whose [sections]
    is a non-empty array starting with an object that has a string [code];
    nothing is asked of the later sections. *)
Theorem styleJSONseemsValid_accepts json :
  styleJSONseemsValid json = Normal true
  <-> exists fs first rest code,
        json = JObj fs
        /\ lookup_field "sections" fs = JArr (JObj first :: rest)
        /\ lookup_field "code" first = JStr code.
Proof.
  unfold styleJSONseemsValid. split.
  - destruct json as [| |b|n|t|xs|fs]; simpl; try discriminate.
    + destruct b; discriminate.
    + destruct (negb (Z.eqb n 0)); discriminate.
    + destruct (negb (String.eqb t "")); discriminate.
    + destruct (lookup_field "sections" fs) as [| |b|n|t|xs|gs] eqn:Hsections;
        simpl; try discriminate.
      * destruct b; discriminate.
      * destruct (negb (Z.eqb n 0)); discriminate.
      * destruct (negb (String.eqb t "")); simpl; [|discriminate].
        destruct (Z.eqb _ 0); simpl; discriminate.
      * destruct xs as [|first rest]; simpl; [discriminate|].
        destruct first as [| |b|n|t|ys|first]; simpl; try discriminate.
        destruct (lookup_field "code" first) as [| | | |code| |] eqn:Hcode;
          simpl; try discriminate.
        intros _. now exists fs, first, rest, code.
      * destruct (negb (truthy (lookup_field "length" gs))); discriminate.
  - intros (fs & first & rest & code & -> & Hsections & Hcode). simpl.
    rewrite Hsections. simpl. rewrite Hcode. reflexivity.
Qed.

(** X2. The check throws (a [TypeError]) exactly for an object whose
    [sections] is an array starting with [null] (or [undefined]); any other
    value is answered with [true] or [false]. *)
Theorem styleJSONseemsValid_throws json :
  (exists e, styleJSONseemsValid json = Throw e)
  <-> exists fs first rest,
        json = JObj fs
        /\ lookup_field "sections" fs = JArr (first :: rest)
        /\ (first = JNull \/ first = JUndefined).
Proof.
  unfold styleJSONseemsValid. split.
  - intros [e He]. revert He.
    destruct json as [| |b|n|t|xs|fs]; simpl; try discriminate.
    + destruct b; discriminate.
    + destruct (negb (Z.eqb n 0)); discriminate.
    + destruct (negb (String.eqb t "")); discriminate.
    + destruct (lookup_field "sections" fs) as [| |b|n|t|xs|gs] eqn:Hsections;
        simpl; try discriminate.
      * destruct b; discriminate.
      * destruct (negb (Z.eqb n 0)); discriminate.
      * destruct (negb (String.eqb t "")); simpl; [|discriminate].
        destruct (Z.eqb _ 0); simpl; discriminate.
      * destruct xs as [|first rest]; simpl; [discriminate|].
        destruct first as [| |b|n|t|ys|first]; simpl; try discriminate.
        -- intros _. exists fs, JUndefined, rest. auto.
        -- intros _. exists fs, JNull, rest. auto.
      * destruct (negb (truthy (lookup_field "length" gs))); discriminate.
  - intros (fs & first & rest & -> & Hsections & [-> | ->]); simpl;
      rewrite Hsections; simpl; eexists; reflexivity.
Qed.

(** ** The shape of a check *)

(** The state after further calls to the collaborators: the module's
    variables are as they were. *)
Definition replay (cs : list Call) (s : State) : State :=
  fold_left (fun s c => call c s) cs s.

(** What the chain may call before the save-guard: nothing (the edit guard
    stopped it), the MD5 and then the document on the legacy path, the source
    and then the build on the versioned path. *)
Definition fetch_shape (style : Style) (fetches : list Call) : Prop :=
  match usercssData style with
  | None =>
      fetches = []
      \/ fetches = [CallDownload (md5_request style)]
      \/ fetches = [CallDownload (md5_request style); CallDownload (document_request style)]
  | Some _ =>
      fetches = []
      \/ fetches = [CallDownload (source_request style)]
      \/ exists json, fetches = [CallDownload (source_request style); CallBuildCode json]
  end.

(** What the save-guard may call: nothing, [saveStyle] with the digest
    refresh, or (only when [save] is set) [API_METHODS] with the stamped
    candidate. *)
Definition save_shape (G : Globals) (style : Style) (save : bool) (json : Value)
    (saves : list Call) : Prop :=
  saves = []
  \/ exists fs,
      or_empty_object json = JObj fs
      /\ (saves = [CallSaveStyle
                     (JObj (assign_field "reason" (JStr "update-digest") (stamp G style fs)))]
          \/ (save = true
              /\ saves = [CallApi (if truthy (lookup_field "usercssData" fs)
                                   then saveUsercss_method else saveStyle_method)
                            (JObj (stamp G style fs))])).

Lemma calls_replay cs s : calls (replay cs s) = (calls s ++ cs)%list.
Proof.
  revert s. induction cs as [|c cs IH]; intros s; simpl.
  - now rewrite app_nil_r.
  - rewrite IH. simpl. now rewrite <- app_assoc.
Qed.

Lemma vars_replay cs s :
  logQueue (replay cs s) = logQueue s
  /\ retrying (replay cs s) = retrying s
  /\ checkingAll (replay cs s) = checkingAll s
  /\ lastUpdateTime (replay cs s) = lastUpdateTime s
  /\ logLastWriteTime (replay cs s) = logLastWriteTime s.
Proof.
  revert s. induction cs as [|c cs IH]; intros s; simpl; [tauto|].
  destruct (IH (call c s)) as (-> & -> & -> & -> & ->). simpl. tauto.
Qed.

(** The save-guard on an object that passed the validation, branch by
    branch. *)
Lemma maybeSave_of_valid G style save ignoreDigest json fs s :
  or_empty_object json = JObj fs ->
  passes_validation (JObj fs) = Normal true ->
  maybeSave G style save ignoreDigest json s
  = if styleSectionsEqual G (lookup_field "sections" fs) (sections style)
    then (Rejected (Message STATES.SAME_CODE),
          call (CallSaveStyle
                  (JObj (assign_field "reason" (JStr "update-digest") (stamp G style fs)))) s)
    else if negb (truthy_str (originalDigest style)) && negb ignoreDigest
    then (Rejected (Message STATES.MAYBE_EDITED), s)
    else if save
    then settle (API_METHODS G (if truthy (lookup_field "usercssData" fs)
                                then saveUsercss_method else saveStyle_method)
                   (JObj (stamp G style fs)))
           (call (CallApi (if truthy (lookup_field "usercssData" fs)
                           then saveUsercss_method else saveStyle_method)
                    (JObj (stamp G style fs))) s)
    else (Fulfilled (JObj (stamp G style fs)), s).
Proof.
  intros Hfs Hvalid. unfold maybeSave. rewrite Hfs. run. rewrite Hvalid. simpl.
  rewrite stamp_sections, stamp_usercssData.
  destruct (styleSectionsEqual G _ _); [reflexivity|].
  destruct (_ && _); [reflexivity|].
  destruct save; reflexivity.
Qed.

(** The save-guard on anything else: rejected, without a call. *)
Lemma maybeSave_of_invalid G style save ignoreDigest json s :
  passes_validation (or_empty_object json) <> Normal true ->
  exists e, maybeSave G style save ignoreDigest json s = (Rejected e, s)
            /\ (passes_validation (or_empty_object json) = Normal false ->
                e = Message STATES.ERROR_JSON)
            /\ (forall x, passes_validation (or_empty_object json) = Throw x -> e = x).
Proof.
  intros Hinvalid. unfold maybeSave. run.
  destruct (passes_validation (or_empty_object json)) as [[|]|x]; simpl.
  - congruence.
  - eexists. split; [reflexivity|]. split; [reflexivity | discriminate].
  - eexists. split; [reflexivity|]. split; [discriminate | congruence].
Qed.

Lemma maybeSave_shape G style save ignoreDigest json s :
  exists saves,
    save_shape G style save json saves
    /\ snd (maybeSave G style save ignoreDigest json s) = replay saves s
    /\ fst (maybeSave G style save ignoreDigest json s) <> Pending.
Proof.
  destruct (passes_validation (or_empty_object json)) as [[|]|x] eqn:Hvalid.
  - destruct (valid_is_object _ Hvalid) as [fs Hfs]. rewrite Hfs in Hvalid.
    rewrite (maybeSave_of_valid G style save ignoreDigest json fs s Hfs Hvalid).
    destruct (styleSectionsEqual G _ _).
    { eexists [_]. split; [right; exists fs; split; [exact Hfs | left; reflexivity]|].
      split; [reflexivity | discriminate]. }
    destruct (_ && _).
    { exists []. split; [now left|]. split; [reflexivity | discriminate]. }
    destruct save.
    + eexists [_]. split; [right; exists fs; split; [exact Hfs | right; split; reflexivity]|].
      unfold settle. destruct (API_METHODS G _ _); split; try reflexivity; discriminate.
    + exists []. split; [now left|]. split; [reflexivity | discriminate].
  - destruct (maybeSave_of_invalid G style save ignoreDigest json s) as (e & -> & _);
      [congruence|].
    exists []. split; [now left|]. split; [reflexivity | discriminate].
  - destruct (maybeSave_of_invalid G style save ignoreDigest json s) as (e & -> & _);
      [congruence|].
    exists []. split; [now left|]. split; [reflexivity | discriminate].
Qed.

Lemma candidate_shape G style ignoreDigest s :
  exists fetches,
    fetch_shape style fetches
    /\ snd (candidate G style ignoreDigest s) = replay fetches s
    /\ fst (candidate G style ignoreDigest s) <> Pending.
Proof.
  assert (forall d : Carried,
    exists fetches,
      fetch_shape style fetches
      /\ snd (match usercssData style with
              | Some _ => maybeUpdateUsercss G style ignoreDigest
              | None => maybeUpdateUSO G style ignoreDigest
              end s) = replay fetches s
      /\ fst (match usercssData style with
              | Some _ => maybeUpdateUsercss G style ignoreDigest
              | None => maybeUpdateUSO G style ignoreDigest
              end s) <> Pending) as Hfetch.
  { intros _. unfold fetch_shape. destruct (usercssData style) as [u|] eqn:Hu.
    - unfold maybeUpdateUsercss, andThen, download, settle. fold (source_request style).
      rewrite Hu.
      destruct (download_response G _ _) as [text|e].
      2:{ eexists [_]. split; [right; left; reflexivity|]. split; [reflexivity|discriminate]. }
      destruct (usercss_buildMeta G text) as [json|e].
      2:{ eexists [_]. split; [right; left; reflexivity|]. split; [reflexivity|discriminate]. }
      destruct (cbind (prop json "usercssData") _) as [newVersion|e].
      2:{ eexists [_]. split; [right; left; reflexivity|]. split; [reflexivity|discriminate]. }
      assert (exists fetches,
        (fetches = [] \/ fetches = [CallDownload (source_request style)]
         \/ exists j, fetches = [CallDownload (source_request style); CallBuildCode j])
        /\ snd (buildCode G json (call (CallDownload (source_request style)) s))
           = replay fetches s
        /\ fst (buildCode G json (call (CallDownload (source_request style)) s))
           <> Pending) as Hbuild.
      { eexists [_; _]. split; [right; right; eexists; reflexivity|].
        unfold buildCode, andThen, effect, settle. simpl.
        destruct (usercss_buildCode G json); split; try reflexivity; discriminate. }
      destruct (Z.sgn _) as [|[]|]; try exact Hbuild;
        try (eexists [_]; split; [right; left; reflexivity|];
             split; [reflexivity|discriminate]).
      destruct (negb ignoreDigest);
        [eexists [_]; split; [right; left; reflexivity|];
         split; [reflexivity|discriminate]|].
      destruct (same_string _ _); [|exact Hbuild].
      eexists [_]. split; [right; left; reflexivity|]. split; [reflexivity|discriminate].
    - unfold maybeUpdateUSO, andThen, download, settle, resolve.
      fold (md5_request style). fold (document_request style).
      destruct (download_response G _ (md5_request style)) as [md5|e].
      2:{ eexists [_]. split; [right; left; reflexivity|]. split; [reflexivity|discriminate]. }
      destruct (_ || _).
      { eexists [_]. split; [right; left; reflexivity|]. split; [reflexivity|discriminate]. }
      destruct (_ && _).
      { eexists [_]. split; [right; left; reflexivity|]. split; [reflexivity|discriminate]. }
      eexists [_; _]. split; [right; right; reflexivity|].
      destruct (download_response G _ (document_request style));
        split; try reflexivity; discriminate. }
  unfold candidate. destruct ignoreDigest; run.
  - apply (Hfetch TheStyle).
  - destruct (locallyEdited style _).
    + exists []. split; [|split; [reflexivity | discriminate]].
      unfold fetch_shape. destruct (usercssData style); now left.
    + apply (Hfetch Nothing).
Qed.

(** The calls to [API_METHODS], the full saves. *)
Definition api_calls (cs : list Call) : list (ApiMethod * Value) :=
  flat_map (fun c => match c with CallApi m d => [(m, d)] | _ => [] end) cs.

(** The state after a report: the line is queued and the result posted. *)
Definition reported_state (G : Globals) (port : bool) (line : string) (info : Info)
    (s : State) : State :=
  snd (postMessage port info (snd (log G line s))).

Lemma reportFailure_state G id style port error s :
  is_status 503 error = false ->
  reportFailure G id style port error s
  = (Fulfilled (InfoError (if is_status 0 error then Message "server unreachable" else error)
                  (getStyleWithNoCode G style)),
     reported_state G port
       (skip_line style (if is_status 0 error then Message "server unreachable" else error))
       (InfoError (if is_status 0 error then Message "server unreachable" else error)
          (getStyleWithNoCode G style)) s).
Proof.
  intros H503. unfold reportFailure, retry_condition, reported_state. rewrite H503.
  unfold andThen, postMessage, log, resolve, effect, skip_line. destruct port; reflexivity.
Qed.

Lemma reportSuccess_state G style port saved s :
  reportSuccess G style port saved s
  = (Fulfilled (InfoUpdated saved),
     reported_state G port
       (STATES.UPDATED ++ " #" ++ pretty (style_id style) ++ " " ++ name style)
       (InfoUpdated saved) s).
Proof.
  unfold reportSuccess, reported_state, andThen, postMessage, log, resolve, effect.
  destruct port; reflexivity.
Qed.

Lemma fetch_shape_quiet style fetches :
  fetch_shape style fetches ->
  posted fetches = [] /\ timeouts fetches = [] /\ store_writes fetches = []
  /\ api_calls fetches = [].
Proof.
  unfold fetch_shape.
  destruct (usercssData style); intros [-> | [-> | H]]; try (repeat split; reflexivity).
  - destruct H as [j ->]. repeat split; reflexivity.
  - subst. repeat split; reflexivity.
Qed.

Lemma save_shape_quiet G style save json saves :
  save_shape G style save json saves ->
  posted saves = [] /\ timeouts saves = [] /\ downloads saves = [] /\ builds saves = []
  /\ (length (store_writes saves) <= 1)%nat
  /\ (save = false -> api_calls saves = []).
Proof.
  intros [-> | (fs & _ & [-> | [Hsave ->]])]; simpl; repeat split; try lia; congruence.
Qed.

Lemma replay_app cs cs' s : replay (cs ++ cs') s = replay cs' (replay cs s).
Proof. unfold replay. apply fold_left_app. Qed.

(** A check, stage by stage: the chain calls what its path fetches and what
    the save-guard saves, and then either a report follows, or the chain was
    rejected with 503 and the handler threw. *)
Lemma checkStyle_shape G id style port save ignoreDigest s :
  exists fetches saves,
    fetch_shape style fetches
    /\ (saves = []
        \/ exists json, fst (candidate G style ignoreDigest s) = Fulfilled json
                        /\ save_shape G style save json saves)
    /\ ((exists info line,
           checkStyle G id style port save ignoreDigest s
           = (Fulfilled info, reported_state G port line info (replay (fetches ++ saves) s))
           /\ String.eqb line "" = false)
        \/ (checkStyle G id style port save ignoreDigest s
            = (Rejected (Exception "TypeError" "retrying.get is not a function"),
               replay (fetches ++ saves) s)
            /\ attempt G style port save ignoreDigest s
               = (Rejected (Status 503), replay (fetches ++ saves) s))).
Proof.
  assert (forall e s2,
    attempt G style port save ignoreDigest s = (Rejected e, s2) ->
    (exists info line,
        checkStyle G id style port save ignoreDigest s
        = (Fulfilled info, reported_state G port line info s2)
        /\ String.eqb line "" = false)
    \/ (checkStyle G id style port save ignoreDigest s
        = (Rejected (Exception "TypeError" "retrying.get is not a function"), s2)
        /\ attempt G style port save ignoreDigest s = (Rejected (Status 503), s2)))
    as Hfailed.
  { intros e s2 Hrun. unfold checkStyle, catch. rewrite Hrun.
    destruct (is_status 503 e) eqn:H503.
    - apply is_status_true in H503 as ->. right. split; reflexivity.
    - left. rewrite (reportFailure_state G id style port e s2 H503).
      eexists _, _. split; reflexivity. }
  destruct (candidate_shape G style ignoreDigest s) as (fetches & Hfetch & Hstate & Hsettled).
  destruct (candidate G style ignoreDigest s) as [[json|e|] s1] eqn:Hc; simpl in *; subst s1.
  - destruct (maybeSave_shape G style save ignoreDigest json (replay fetches s))
      as (saves & Hsave & Hstate & Hsettled').
    exists fetches, saves. split; [exact Hfetch|].
    split; [right; exists json; split; [reflexivity | exact Hsave]|].
    rewrite replay_app.
    destruct (maybeSave G style save ignoreDigest json (replay fetches s))
      as [[saved|e|] s2] eqn:Hm; simpl in *; subst s2.
    + left.
      assert (attempt G style port save ignoreDigest s
              = reportSuccess G style port saved (replay saves (replay fetches s))) as Ha.
      { unfold attempt, andThen. rewrite Hc, Hm. reflexivity. }
      unfold checkStyle, catch. rewrite Ha, reportSuccess_state.
      eexists _, _. split; reflexivity.
    + apply (Hfailed e). unfold attempt, andThen. rewrite Hc, Hm. reflexivity.
    + congruence.
  - exists fetches, []. split; [exact Hfetch|]. split; [now left|].
    rewrite app_nil_r. apply (Hfailed e). unfold attempt, andThen. rewrite Hc. reflexivity.
  - congruence.
Qed.

Lemma reported_state_vars G port line info s :
  logQueue (reported_state G port line info s)
  = (logQueue s ++ [{| text := line; time := localeNow G |}])%list
  /\ retrying (reported_state G port line info s) = retrying s
  /\ calls (reported_state G port line info s)
     = (calls s ++ CallDebounce FnFlushQueue
                     (if negb (String.eqb line "") && checkingAll s then 1000 else 0)
                   :: match port with
                      | true => [CallPostMessage info]
                      | false => []
                      end)%list.
Proof.
  unfold reported_state, postMessage, log, effect, resolve, debounce.
  destruct port; simpl; rewrite <- ?app_assoc; repeat split; reflexivity.
Qed.

(** All the calls of a check, in order: the fetches, the saves, the report. *)
Lemma checkStyle_calls G id style port save ignoreDigest s :
  exists fetches saves report,
    calls (snd (checkStyle G id style port save ignoreDigest s))
    = (calls s ++ fetches ++ saves ++ report)%list
    /\ fetch_shape style fetches
    /\ (saves = []
        \/ exists json, fst (candidate G style ignoreDigest s) = Fulfilled json
                        /\ save_shape G style save json saves)
    /\ (report = []
        \/ exists delay, report = [CallDebounce FnFlushQueue delay]
        \/ exists delay info, report = [CallDebounce FnFlushQueue delay; CallPostMessage info])
    /\ retrying (snd (checkStyle G id style port save ignoreDigest s)) = retrying s.
Proof.
  destruct (checkStyle_shape G id style port save ignoreDigest s)
    as (fetches & saves & Hfetch & Hsave & [(info & line & -> & _) | [-> _]]).
  - destruct (reported_state_vars G port line info (replay (fetches ++ saves) s))
      as (_ & Hretrying & Hcalls).
    eexists fetches, saves, _. simpl. rewrite Hcalls, Hretrying, calls_replay.
    rewrite <- !app_assoc. split; [reflexivity|].
    split; [exact Hfetch|]. split; [exact Hsave|]. split.
    + right. destruct port;
        [exists 0; right; eexists _, _; reflexivity | eexists; left; reflexivity].
    + apply vars_replay.
  - exists fetches, saves, []. simpl. rewrite calls_replay, app_nil_r.
    split; [reflexivity|]. split; [exact Hfetch|]. split; [exact Hsave|].
    split; [now left | apply vars_replay].
Qed.

(** X3. Whatever happens, a check's promise settles, and it is rejected in
    one case only: the chain was rejected with 503, and what rejects the
    check is the [TypeError] of [retrying.get]. No check ever sets a timer or
    touches the [retrying] set: the retry branch is dead code. *)
Theorem a_check_settles_and_never_retries G id style port save ignoreDigest s :
  ((exists info, fst (checkStyle G id style port save ignoreDigest s) = Fulfilled info)
   \/ (fst (checkStyle G id style port save ignoreDigest s)
       = Rejected (Exception "TypeError" "retrying.get is not a function")
       /\ fst (attempt G style port save ignoreDigest s) = Rejected (Status 503)))
  /\ timeouts (calls (snd (checkStyle G id style port save ignoreDigest s)))
     = timeouts (calls s)
  /\ retrying (snd (checkStyle G id style port save ignoreDigest s)) = retrying s.
Proof.
  split.
  - destruct (checkStyle_shape G id style port save ignoreDigest s)
      as (fetches & saves & _ & _ & [(info & line & -> & _) | [-> ->]]).
    + left. now exists info.
    + right. split; reflexivity.
  - destruct (checkStyle_calls G id style port save ignoreDigest s)
      as (fetches & saves & report & -> & Hfetch & Hsave & Hreport & Hretrying).
    split; [|exact Hretrying].
    unfold timeouts. rewrite !flat_map_app. fold (timeouts (calls s)) (timeouts fetches)
      (timeouts saves) (timeouts report).
    destruct (fetch_shape_quiet _ _ Hfetch) as (_ & Hquiet & _). rewrite Hquiet.
    assert (timeouts saves = []) as ->.
    { destruct Hsave as [-> | (json & _ & Hsave)]; [reflexivity|].
      destruct (save_shape_quiet _ _ _ _ _ Hsave) as (_ & H & _). exact H. }
    assert (timeouts report = []) as ->.
    { destruct Hreport as [-> | [d [-> | (d' & i & ->)]]]; reflexivity. }
    now rewrite !app_nil_r.
Qed.

(** X4. A check downloads at most twice, in a fixed order: on the legacy
    path the MD5 and then, with a request without body, the document; on the
    versioned path the source alone. *)
Theorem downloads_of_a_check G id style port save ignoreDigest s :
  exists ds,
    downloads (calls (snd (checkStyle G id style port save ignoreDigest s)))
    = (downloads (calls s) ++ ds)%list
    /\ match usercssData style with
       | None => ds = [] \/ ds = [md5_request style]
                 \/ ds = [md5_request style; document_request style]
       | Some _ => ds = [] \/ ds = [source_request style]
       end.
Proof.
  destruct (checkStyle_calls G id style port save ignoreDigest s)
    as (fetches & saves & report & -> & Hfetch & Hsave & Hreport & _).
  exists (downloads fetches).
  unfold downloads at 1. rewrite !flat_map_app.
  fold (downloads (calls s)) (downloads fetches) (downloads saves) (downloads report).
  assert (downloads saves = []) as ->.
  { destruct Hsave as [-> | (json & _ & Hsave)]; [reflexivity|].
    destruct (save_shape_quiet _ _ _ _ _ Hsave) as (_ & _ & H & _). exact H. }
  assert (downloads report = []) as ->.
  { destruct Hreport as [-> | [d [-> | (d' & i & ->)]]]; reflexivity. }
  rewrite !app_nil_r. split; [reflexivity|].
  unfold fetch_shape in Hfetch. destruct (usercssData style).
  - destruct Hfetch as [-> | [-> | [j ->]]]; simpl; auto.
  - destruct Hfetch as [-> | [-> | ->]]; simpl; auto.
Qed.

(** X5. A check calls the store at most once, and with [save] unset it never
    calls [API_METHODS]: the only thing a dry run can write is the digest
    refresh. *)
Theorem store_calls_of_a_check G id style port save ignoreDigest s :
  exists ws,
    store_writes (calls (snd (checkStyle G id style port save ignoreDigest s)))
    = (store_writes (calls s) ++ ws)%list
    /\ (length ws <= 1)%nat
    /\ (save = false ->
        api_calls (calls (snd (checkStyle G id style port save ignoreDigest s)))
        = api_calls (calls s)).
Proof.
  destruct (checkStyle_calls G id style port save ignoreDigest s)
    as (fetches & saves & report & -> & Hfetch & Hsave & Hreport & _).
  exists (store_writes saves).
  destruct (fetch_shape_quiet _ _ Hfetch) as (_ & _ & Hfw & Hfa).
  assert (store_writes report = [] /\ api_calls report = []) as [Hrw Hra].
  { destruct Hreport as [-> | [d [-> | (d' & i & ->)]]]; split; reflexivity. }
  split; [|split].
  - unfold store_writes at 1. rewrite !flat_map_app.
    fold (store_writes (calls s)) (store_writes fetches) (store_writes saves)
      (store_writes report).
    now rewrite Hfw, Hrw, app_nil_r.
  - destruct Hsave as [-> | (json & _ & Hsave)]; [simpl; lia|].
    now destruct (save_shape_quiet _ _ _ _ _ Hsave) as (_ & _ & _ & _ & H & _).
  - intros Hdry. unfold api_calls at 1. rewrite !flat_map_app.
    fold (api_calls (calls s)) (api_calls fetches) (api_calls saves) (api_calls report).
    rewrite Hfa, Hra.
    assert (api_calls saves = []) as ->.
    { destruct Hsave as [-> | (json & _ & Hsave)]; [reflexivity|].
      destruct (save_shape_quiet _ _ _ _ _ Hsave) as (_ & _ & _ & _ & _ & H). now apply H. }
    now rewrite !app_nil_r.
Qed.

Lemma pending_app fn cs cs' :
  pending fn (cs ++ cs') = pending_from fn (pending fn cs) cs'.
Proof. unfold pending, pending_from. apply fold_left_app. Qed.

(** X6. A check that resolves has reported exactly once: one non-empty line
    is added to the log queue, the result is posted to the port (if there is
    one) and to nothing else, and the flush of the log is left armed: after a
    second during [checkAllStyles], at once otherwise. *)
Theorem a_resolved_check_is_reported_once G id style port save ignoreDigest s info s' :
  checkStyle G id style port save ignoreDigest s = (Fulfilled info, s') ->
  exists line,
    String.eqb line "" = false
    /\ logQueue s' = (logQueue s ++ [{| text := line; time := localeNow G |}])%list
    /\ posted (calls s') = (posted (calls s) ++ to_port port info)%list
    /\ pending FnFlushQueue (calls s') = Some (if checkingAll s then 1000 else 0).
Proof.
  intros Hrun.
  destruct (checkStyle_shape G id style port save ignoreDigest s)
    as (fetches & saves & Hfetch & Hsave & [(info0 & line & Hshape & Hline) | [Hshape _]]);
    rewrite Hshape in Hrun; [|discriminate].
  injection Hrun as -> <-. exists line.
  destruct (reported_state_vars G port line info (replay (fetches ++ saves) s))
    as (Hlog & _ & Hcalls).
  destruct (vars_replay (fetches ++ saves) s) as (Hqueue & _ & Hall & _).
  rewrite Hline, Hall in Hcalls. simpl in Hcalls.
  split; [exact Hline|]. split; [now rewrite Hlog, Hqueue|]. split.
  - rewrite Hcalls, calls_replay. unfold posted. rewrite !flat_map_app.
    fold (posted (calls s)) (posted fetches) (posted saves).
    destruct (fetch_shape_quiet _ _ Hfetch) as (Hquiet & _). rewrite Hquiet.
    assert (posted saves = []) as ->.
    { destruct Hsave as [-> | (json & _ & Hsave)]; [reflexivity|].
      destruct (save_shape_quiet _ _ _ _ _ Hsave) as (H & _). exact H. }
    destruct port; simpl; rewrite ?app_nil_r; reflexivity.
  - rewrite Hcalls, pending_app. destruct port; reflexivity.
Qed.

Lemma a_resolved_check_is_reported_once_witness :
  exists line,
    String.eqb line "" = false
    /\ logQueue (snd (checkStyle (Sample.world "D2" 24 (Sample.always Sample.md5) JUndefined)
                        (Some 1) Sample.legacy true true false Sample.idle))
       = [{| text := line; time := "7/14/2017, 4:40:00 AM" |}]
    /\ posted (calls (snd (checkStyle
                             (Sample.world "D2" 24 (Sample.always Sample.md5) JUndefined)
                             (Some 1) Sample.legacy true true false Sample.idle)))
       = [InfoError (Message STATES.EDITED) Sample.legacy]
    /\ pending FnFlushQueue
         (calls (snd (checkStyle (Sample.world "D2" 24 (Sample.always Sample.md5) JUndefined)
                        (Some 1) Sample.legacy true true false Sample.idle)))
       = Some 0.
Proof.
  apply (a_resolved_check_is_reported_once
           (Sample.world "D2" 24 (Sample.always Sample.md5) JUndefined)
           (Some 1) Sample.legacy true true false Sample.idle
           (InfoError (Message STATES.EDITED) Sample.legacy)).
  reflexivity.
Defined.

(** ** Candidates that are not saved as they are *)

Lemma styleJSONseemsValid_throws_TypeError json x :
  styleJSONseemsValid json = Throw x -> exists msg, x = Exception "TypeError" msg.
Proof.
  unfold styleJSONseemsValid.
  destruct json as [| |b|n|t|xs|fs]; simpl; try discriminate.
  - destruct b; discriminate.
  - destruct (negb (Z.eqb n 0)); discriminate.
  - destruct (negb (String.eqb t "")); discriminate.
  - destruct (lookup_field "sections" fs) as [| |b|n|t|xs|gs]; simpl; try discriminate.
    + destruct b; discriminate.
    + destruct (negb (Z.eqb n 0)); discriminate.
    + destruct (negb (String.eqb t "")); simpl; [|discriminate].
      destruct (Z.eqb _ 0); simpl; discriminate.
    + destruct xs as [|first rest]; simpl; [discriminate|].
      destruct first; simpl; try discriminate; intros [= <-]; eexists; reflexivity.
    + destruct (negb (truthy (lookup_field "length" gs))); discriminate.
Qed.

Lemma passes_validation_throws_TypeError json x :
  passes_validation json = Throw x -> exists msg, x = Exception "TypeError" msg.
Proof.
  unfold passes_validation.
  destruct (prop json "usercssData") as [u|e] eqn:Hprop; simpl.
  - destruct (truthy u); [discriminate|]. apply styleJSONseemsValid_throws_TypeError.
  - intros [= <-]. destruct json; simpl in Hprop; try discriminate;
      injection Hprop as <-; eexists; reflexivity.
Qed.

(** X7. A candidate that does not pass the validation is never stamped or
    saved, whatever [save] and [ignoreDigest] are: the check resolves with
    [ERROR_JSON] when the validation answers [false] (an unparsable document
    among them), and with the [TypeError] itself when the validation throws
    (a document that is [null], or whose first section is). *)
Theorem an_invalid_candidate_is_never_saved G id style port save ignoreDigest json s s1 :
  candidate G style ignoreDigest s = (Fulfilled json, s1) ->
  passes_validation (or_empty_object json) <> Normal true ->
  exists e s',
    checkStyle G id style port save ignoreDigest s
    = (Fulfilled (InfoError e (getStyleWithNoCode G style)), s')
    /\ (passes_validation (or_empty_object json) = Normal false ->
        e = Message STATES.ERROR_JSON)
    /\ (forall x, passes_validation (or_empty_object json) = Throw x ->
        e = x /\ exists msg, x = Exception "TypeError" msg)
    /\ store_writes (calls s') = store_writes (calls s1).
Proof.
  intros Hcandidate Hinvalid.
  destruct (maybeSave_of_invalid G style save ignoreDigest json s1 Hinvalid)
    as (e & Hsave & Hfalse & Hthrow).
  assert (is_status 503 e = false /\ is_status 0 e = false) as [H503 H0].
  { destruct (passes_validation (or_empty_object json)) as [[|]|x] eqn:Hvalid.
    - congruence.
    - rewrite (Hfalse eq_refl). split; reflexivity.
    - rewrite (Hthrow x eq_refl).
      destruct (passes_validation_throws_TypeError _ _ Hvalid) as [msg ->].
      split; reflexivity. }
  destruct (reportFailure_reports G id style port e s1 H503) as (s' & Hr & Hrep).
  rewrite H0 in Hr. exists e, s'. split; [|split; [exact Hfalse|split]].
  - unfold checkStyle, catch, attempt, andThen. rewrite Hcandidate, Hsave. exact Hr.
  - intros x Hx. split; [now apply Hthrow|].
    now apply (passes_validation_throws_TypeError (or_empty_object json)).
  - apply Hrep.
Qed.

Lemma an_invalid_candidate_is_never_saved_witness :
  exists e s',
    checkStyle (Sample.world "D1" 24 (Sample.serves Sample.md5 "<html>") JUndefined)
      (Some 1) Sample.legacy_no_digest true true false Sample.idle
    = (Fulfilled (InfoError e Sample.legacy_no_digest), s')
    /\ (passes_validation (or_empty_object JUndefined) = Normal false ->
        e = Message STATES.ERROR_JSON)
    /\ (forall x, passes_validation (or_empty_object JUndefined) = Throw x ->
        e = x /\ exists msg, x = Exception "TypeError" msg)
    /\ store_writes (calls s') = [].
Proof.
  apply (an_invalid_candidate_is_never_saved
           (Sample.world "D1" 24 (Sample.serves Sample.md5 "<html>") JUndefined)
           (Some 1) Sample.legacy_no_digest true true false JUndefined Sample.idle
           (call (CallDownload (document_request Sample.legacy_no_digest))
              (call (CallDownload (md5_request Sample.legacy_no_digest)) Sample.idle))).
  - reflexivity.
  - discriminate.
Defined.

(** The store operation a full save goes through. *)
Definition save_method (fs : list (string * Value)) : ApiMethod :=
  if truthy (lookup_field "usercssData" fs) then saveUsercss_method else saveStyle_method.

Lemma api_calls_reported_state G port line info s :
  api_calls (calls (reported_state G port line info s)) = api_calls (calls s).
Proof.
  destruct (reported_state_vars G port line info s) as (_ & _ & ->).
  unfold api_calls. rewrite flat_map_app. destruct port; simpl; now rewrite app_nil_r.
Qed.

Lemma store_writes_reported_state G port line info s :
  store_writes (calls (reported_state G port line info s)) = store_writes (calls s).
Proof. apply (reported_after_log_and_post G port s line info). Qed.

(** Past the two rejections of the save-guard, a check resolves with what
    [maybeSave] resolves with, after one report. *)
Lemma checkStyle_of_saved G id style port save ignoreDigest json s s1 saved s2 :
  candidate G style ignoreDigest s = (Fulfilled json, s1) ->
  maybeSave G style save ignoreDigest json s1 = (Fulfilled saved, s2) ->
  checkStyle G id style port save ignoreDigest s
  = (Fulfilled (InfoUpdated saved),
     reported_state G port
       (STATES.UPDATED ++ " #" ++ pretty (style_id style) ++ " " ++ name style)
       (InfoUpdated saved) s2).
Proof.
  intros Hcandidate Hm. unfold checkStyle, catch, attempt, andThen.
  rewrite Hcandidate, Hm, reportSuccess_state. reflexivity.
Qed.

Lemma maybeSave_of_differing G style save ignoreDigest json fs s :
  or_empty_object json = JObj fs ->
  passes_validation (JObj fs) = Normal true ->
  styleSectionsEqual G (lookup_field "sections" fs) (sections style) = false ->
  truthy_str (originalDigest style) || ignoreDigest = true ->
  maybeSave G style save ignoreDigest json s
  = if save
    then settle (API_METHODS G (save_method fs) (JObj (stamp G style fs)))
           (call (CallApi (save_method fs) (JObj (stamp G style fs))) s)
    else (Fulfilled (JObj (stamp G style fs)), s).
Proof.
  intros Hfs Hvalid Hdiffer Hguard.
  rewrite (maybeSave_of_valid G style save ignoreDigest json fs s Hfs Hvalid), Hdiffer.
  assert (negb (truthy_str (originalDigest style)) && negb ignoreDigest = false) as ->.
  { destruct (truthy_str _), ignoreDigest; simpl in *; congruence. }
  reflexivity.
Qed.

(** X8. A dry run ([save] unset) that reaches the save-guard with a valid
    candidate whose sections differ from the local ones, the digest being
    known or ignored, resolves as updated with the stamped candidate, logs
    it as an update, and does not call the store. *)
Theorem a_dry_run_previews_the_update G id style port ignoreDigest json fs s s1 :
  candidate G style ignoreDigest s = (Fulfilled json, s1) ->
  or_empty_object json = JObj fs ->
  passes_validation (JObj fs) = Normal true ->
  styleSectionsEqual G (lookup_field "sections" fs) (sections style) = false ->
  truthy_str (originalDigest style) || ignoreDigest = true ->
  exists s',
    checkStyle G id style port false ignoreDigest s
    = (Fulfilled (InfoUpdated (JObj (stamp G style fs))), s')
    /\ store_writes (calls s') = store_writes (calls s1)
    /\ logQueue s'
       = (logQueue s1 ++ [{| text := "updated #" ++ pretty (style_id style)
                                        ++ " " ++ name style;
                              time := localeNow G |}])%list.
Proof.
  intros Hcandidate Hfs Hvalid Hdiffer Hguard.
  pose proof (maybeSave_of_differing G style false ignoreDigest json fs s1
                Hfs Hvalid Hdiffer Hguard) as Hsave.
  eexists. split; [exact (checkStyle_of_saved G id style port false ignoreDigest
                            json s s1 _ _ Hcandidate Hsave)|].
  split; [apply store_writes_reported_state|].
  apply (reported_after_log_and_post G port s1).
Qed.

Lemma a_dry_run_previews_the_update_witness :
  exists s',
    checkStyle (Sample.world "D1" 24 (Sample.serves "fedcba9876543210fedcba9876543210" "{}")
                  (Sample.document "b{}"))
      (Some 1) Sample.legacy false false false Sample.idle
    = (Fulfilled (InfoUpdated
         (JObj (stamp (Sample.world "D1" 24
                         (Sample.serves "fedcba9876543210fedcba9876543210" "{}")
                         (Sample.document "b{}"))
                  Sample.legacy
                  [("name", JStr "Dark");
                   ("sections", JArr [JObj [("code", JStr "b{}")]])]))), s')
    /\ store_writes (calls s') = []
    /\ logQueue s' = [Sample.entry "updated #1 Dark"].
Proof.
  apply (a_dry_run_previews_the_update
           (Sample.world "D1" 24 (Sample.serves "fedcba9876543210fedcba9876543210" "{}")
              (Sample.document "b{}"))
           (Some 1) Sample.legacy false false (Sample.document "b{}")
           [("name", JStr "Dark"); ("sections", JArr [JObj [("code", JStr "b{}")]])]
           Sample.idle
           (call (CallDownload (document_request Sample.legacy))
              (call (CallDownload (md5_request Sample.legacy)) Sample.idle)));
    reflexivity.
Defined.

(** X9. With [save] set, the same candidate is handed to the store once,
    stamped: to [saveUsercss] if it has [usercssData], to [saveStyle]
    otherwise; and the style the store answers with is what the check
    resolves with. *)
Theorem a_full_save_goes_through_the_store G id style port ignoreDigest json fs s s1 saved :
  candidate G style ignoreDigest s = (Fulfilled json, s1) ->
  or_empty_object json = JObj fs ->
  passes_validation (JObj fs) = Normal true ->
  styleSectionsEqual G (lookup_field "sections" fs) (sections style) = false ->
  truthy_str (originalDigest style) || ignoreDigest = true ->
  API_METHODS G (save_method fs) (JObj (stamp G style fs)) = Normal saved ->
  exists s',
    checkStyle G id style port true ignoreDigest s = (Fulfilled (InfoUpdated saved), s')
    /\ api_calls (calls s')
       = (api_calls (calls s1) ++ [(save_method fs, JObj (stamp G style fs))])%list
    /\ store_writes (calls s')
       = (store_writes (calls s1) ++ [JObj (stamp G style fs)])%list
    /\ (save_method fs = saveUsercss_method
        <-> truthy (lookup_field "usercssData" fs) = true).
Proof.
  intros Hcandidate Hfs Hvalid Hdiffer Hguard Hstore.
  pose proof (maybeSave_of_differing G style true ignoreDigest json fs s1
                Hfs Hvalid Hdiffer Hguard) as Hsave.
  rewrite Hstore in Hsave.
  eexists. split; [exact (checkStyle_of_saved G id style port true ignoreDigest
                            json s s1 _ _ Hcandidate Hsave)|].
  split; [|split].
  - rewrite api_calls_reported_state. unfold api_calls. simpl. now rewrite flat_map_app.
  - rewrite store_writes_reported_state. unfold store_writes. simpl.
    now rewrite flat_map_app.
  - unfold save_method. destruct (truthy _); split; congruence.
Qed.

Lemma a_full_save_goes_through_the_store_witness :
  exists s',
    checkStyle (Sample.world "D1" 24 (Sample.always "/* v1.1.0 */ b{}")
                  (Sample.metadata "1.1.0"))
      (Some 2) Sample.versioned false true false Sample.idle
    = (Fulfilled (InfoUpdated
         (JObj (stamp (Sample.world "D1" 24 (Sample.always "/* v1.1.0 */ b{}")
                         (Sample.metadata "1.1.0"))
                  Sample.versioned
                  [("usercssData", JObj [("version", JStr "1.1.0")]);
                   ("sections", JArr [JObj [("code", JStr "b{}")]])]))), s')
    /\ api_calls (calls s')
       = [(saveUsercss_method,
           JObj (stamp (Sample.world "D1" 24 (Sample.always "/* v1.1.0 */ b{}")
                          (Sample.metadata "1.1.0"))
                   Sample.versioned
                   [("usercssData", JObj [("version", JStr "1.1.0")]);
                    ("sections", JArr [JObj [("code", JStr "b{}")]])]))]
    /\ store_writes (calls s')
       = [JObj (stamp (Sample.world "D1" 24 (Sample.always "/* v1.1.0 */ b{}")
                         (Sample.metadata "1.1.0"))
                  Sample.versioned
                  [("usercssData", JObj [("version", JStr "1.1.0")]);
                   ("sections", JArr [JObj [("code", JStr "b{}")]])])]
    /\ (saveUsercss_method = saveUsercss_method <-> true = true).
Proof.
  apply (a_full_save_goes_through_the_store
           (Sample.world "D1" 24 (Sample.always "/* v1.1.0 */ b{}") (Sample.metadata "1.1.0"))
           (Some 2) Sample.versioned false false (Sample.metadata "1.1.0")
           [("usercssData", JObj [("version", JStr "1.1.0")]);
            ("sections", JArr [JObj [("code", JStr "b{}")]])]
           Sample.idle
           (call (CallBuildCode (Sample.metadata "1.1.0"))
              (call (CallDownload (source_request Sample.versioned)) Sample.idle)));
    reflexivity.
Defined.

(** ** The fetch steps *)

(** Past the edit guard the chain is the fetch step of its path. *)
Lemma candidate_past_guard G style ignoreDigest s :
  guard_passes G style ignoreDigest = true ->
  candidate G style ignoreDigest s
  = match usercssData style with
    | Some _ => maybeUpdateUsercss G style ignoreDigest s
    | None => maybeUpdateUSO G style ignoreDigest s
    end.
Proof.
  unfold candidate, guard_passes. intros Hguard.
  destruct ignoreDigest; simpl in *; run; [now destruct (usercssData style)|].
  apply negb_true_iff in Hguard. rewrite Hguard. now destruct (usercssData style).
Qed.

Lemma downloads_after_one r s :
  length (downloads (calls (call (CallDownload r) s))) = S (length (downloads (calls s))).
Proof. rewrite downloads_call_download, length_app. simpl. lia. Qed.

(** X10. On the legacy path, an answer to the MD5 request that is not 32
    characters long (the empty answer included) ends the check as
    [ERROR_MD5], with or without [ignoreDigest]: the document is not
    requested and the store is not called. *)
Theorem a_malformed_md5_is_an_error G id style port save ignoreDigest s md5 :
  usercssData style = None ->
  guard_passes G style ignoreDigest = true ->
  download_response G (length (downloads (calls s))) (md5_request style) = Normal md5 ->
  String.length md5 <> 32%nat ->
  exists s',
    checkStyle G id style port save ignoreDigest s = (skipped G style STATES.ERROR_MD5, s')
    /\ downloads (calls s') = (downloads (calls s) ++ [md5_request style])%list
    /\ store_writes (calls s') = store_writes (calls s).
Proof.
  intros Hlegacy Hguard Hanswer Hlength.
  assert (candidate G style ignoreDigest s
          = (Rejected (Message STATES.ERROR_MD5), call (CallDownload (md5_request style)) s))
    as Hc.
  { rewrite (candidate_past_guard _ _ _ _ Hguard), Hlegacy.
    unfold maybeUpdateUSO. run. fold (md5_request style). rewrite Hanswer. run.
    apply Nat.eqb_neq in Hlength. rewrite Hlength. simpl. rewrite orb_true_r. reflexivity. }
  destruct (rejected_candidate_is_skipped G id style port save ignoreDigest s _ _ Hc)
    as (s' & Hr & Hrep).
  exists s'. split; [exact Hr|]. split.
  - rewrite (reported_downloads _ _ _ _ _ Hrep). apply downloads_call_download.
  - rewrite (reported_writes _ _ _ _ _ Hrep). apply store_writes_call_download.
Qed.

Lemma a_malformed_md5_is_an_error_witness :
  exists s',
    checkStyle (Sample.world "D1" 24 (Sample.always "<html>Not found</html>") JUndefined)
      (Some 1) Sample.legacy true true true Sample.idle
    = (skipped (Sample.world "D1" 24 (Sample.always "<html>Not found</html>") JUndefined)
         Sample.legacy STATES.ERROR_MD5, s')
    /\ downloads (calls s') = [md5_request Sample.legacy]
    /\ store_writes (calls s') = [].
Proof.
  apply (a_malformed_md5_is_an_error
           (Sample.world "D1" 24 (Sample.always "<html>Not found</html>") JUndefined)
           (Some 1) Sample.legacy true true true Sample.idle "<html>Not found</html>");
    try reflexivity.
  discriminate.
Defined.

(** X11. On the legacy path, past the edit guard and a well-formed MD5, the
    document is requested (without a body) in every case but the one of
    [SAME_MD5]: when [ignoreDigest] is set, when the style has no
    [originalDigest], or when the MD5 differs from [originalMd5]. The
    candidate is then what [tryJSONparse] makes of the answer. *)
Theorem the_document_is_fetched_unless_unchanged G style ignoreDigest s md5 text :
  usercssData style = None ->
  guard_passes G style ignoreDigest = true ->
  download_response G (length (downloads (calls s))) (md5_request style) = Normal md5 ->
  String.length md5 = 32%nat ->
  ignoreDigest = true \/ truthy_str (originalDigest style) = false
    \/ originalMd5 style <> Some md5 ->
  download_response G (S (length (downloads (calls s)))) (document_request style)
    = Normal text ->
  candidate G style ignoreDigest s
  = (Fulfilled (tryJSONparse G text),
     call (CallDownload (document_request style))
       (call (CallDownload (md5_request style)) s)).
Proof.
  intros Hlegacy Hguard Hanswer Hlength Hchanged Hdocument.
  rewrite (candidate_past_guard _ _ _ _ Hguard), Hlegacy.
  unfold maybeUpdateUSO. run. fold (md5_request style). rewrite Hanswer. run.
  rewrite (length_32_not_empty _ Hlength), Hlength. simpl.
  assert (same_string (originalMd5 style) md5 && truthy_str (originalDigest style)
          && negb ignoreDigest = false) as ->.
  { destruct Hchanged as [-> | [-> | Hdiffers]].
    - apply andb_false_r.
    - now rewrite andb_false_r.
    - now rewrite (same_string_false _ _ Hdiffers). }
  fold (document_request style). rewrite downloads_after_one, Hdocument. reflexivity.
Qed.

Lemma the_document_is_fetched_unless_unchanged_witness :
  candidate (Sample.world "D1" 24 (Sample.serves Sample.md5 "{}") (Sample.document "b{}"))
    Sample.legacy true Sample.idle
  = (Fulfilled (Sample.document "b{}"),
     call (CallDownload (document_request Sample.legacy))
       (call (CallDownload (md5_request Sample.legacy)) Sample.idle)).
Proof.
  apply (the_document_is_fetched_unless_unchanged
           (Sample.world "D1" 24 (Sample.serves Sample.md5 "{}") (Sample.document "b{}"))
           Sample.legacy true Sample.idle Sample.md5 "{}"); try reflexivity.
  left. reflexivity.
Defined.

(** X12. On the versioned path, remote metadata without [usercssData] (or
    metadata that are [null] or [undefined] themselves) make the check fail
    in the destructuring: it resolves with a [TypeError] as its error, after
    the one download, and nothing is built or saved. *)
Theorem metadata_without_usercssData_fail G id style port save ignoreDigest u text json s :
  usercssData style = Some u ->
  guard_passes G style ignoreDigest = true ->
  download_response G (length (downloads (calls s))) (source_request style) = Normal text ->
  usercss_buildMeta G text = Normal json ->
  json = JUndefined \/ json = JNull
    \/ prop json "usercssData" = Normal JUndefined
    \/ prop json "usercssData" = Normal JNull ->
  exists msg s',
    checkStyle G id style port save ignoreDigest s
    = (Fulfilled (InfoError (Exception "TypeError" msg) (getStyleWithNoCode G style)), s')
    /\ downloads (calls s') = (downloads (calls s) ++ [source_request style])%list
    /\ builds (calls s') = builds (calls s)
    /\ store_writes (calls s') = store_writes (calls s).
Proof.
  intros Hversioned Hguard Hanswer Hmeta Hmissing.
  assert (exists msg, announced_version json = Throw (Exception "TypeError" msg))
    as [msg Hthrows].
  { unfold announced_version.
    destruct Hmissing as [-> | [-> | [-> | ->]]]; simpl; eexists; reflexivity. }
  assert (candidate G style ignoreDigest s
          = (Rejected (Exception "TypeError" msg),
             call (CallDownload (source_request style)) s)) as Hc.
  { rewrite (candidate_past_guard _ _ _ _ Hguard), Hversioned.
    unfold maybeUpdateUsercss. run. fold (source_request style). rewrite Hanswer. run.
    rewrite Hmeta. run. rewrite Hversioned. run.
    unfold announced_version in Hthrows. rewrite Hthrows. reflexivity. }
  apply (attempt_of_rejected G style port save) in Hc.
  destruct (reportFailure_reports G id style port (Exception "TypeError" msg)
              (call (CallDownload (source_request style)) s) eq_refl) as (s' & Hr & Hrep).
  exists msg, s'. unfold checkStyle, catch. rewrite Hc. split; [exact Hr|].
  split; [|split].
  - rewrite (reported_downloads _ _ _ _ _ Hrep). apply downloads_call_download.
  - rewrite (reported_builds _ _ _ _ _ Hrep). apply builds_call_download.
  - rewrite (reported_writes _ _ _ _ _ Hrep). apply store_writes_call_download.
Qed.

Lemma metadata_without_usercssData_fail_witness :
  exists msg s',
    checkStyle (Sample.world "D1" 24 (Sample.always "a{}") (Sample.document "a{}"))
      (Some 2) Sample.versioned true true false Sample.idle
    = (Fulfilled (InfoError (Exception "TypeError" msg) Sample.versioned), s')
    /\ downloads (calls s') = [source_request Sample.versioned]
    /\ builds (calls s') = []
    /\ store_writes (calls s') = [].
Proof.
  apply (metadata_without_usercssData_fail
           (Sample.world "D1" 24 (Sample.always "a{}") (Sample.document "a{}"))
           (Some 2) Sample.versioned true true false {| version := "1.0.0" |}
           "a{}" (Sample.document "a{}") Sample.idle); try reflexivity.
  right. right. left. reflexivity.
Defined.

(** ** What [ignoreDigest] switches off *)

(** The same world with another digest function. *)
Definition with_digest (G : Globals) (digest : Style -> string) : Globals :=
  {| now := now G; localeNow := localeNow G; updateInterval := updateInterval G;
     calcStyleDigest := digest;
     styleSectionsEqual := styleSectionsEqual G;
     getStyleWithNoCode := getStyleWithNoCode G;
     semverCompare := semverCompare G;
     download_response := download_response G;
     tryJSONparse := tryJSONparse G;
     usercss_buildMeta := usercss_buildMeta G;
     usercss_buildCode := usercss_buildCode G;
     API_METHODS := API_METHODS G |}.

(** The same style with another [originalDigest]. *)
Definition with_originalDigest (style : Style) (digest : option string) : Style :=
  {| style_id := style_id style; name := name style; originalName := originalName style;
     originalDigest := digest; originalMd5 := originalMd5 style;
     md5Url := md5Url style; updateUrl := updateUrl style;
     usercssData := usercssData style; sourceCode := sourceCode style;
     sections := sections style |}.

Lemma maybeSave_ignores_the_digests G digest style stored save json s :
  maybeSave (with_digest G digest) (with_originalDigest style stored) save true json s
  = maybeSave G style save true json s.
Proof.
  unfold maybeSave, andThen, settle.
  destruct (passes_validation (or_empty_object json)) as [[|]|e]; try reflexivity.
  destruct (or_empty_object json); try reflexivity.
  simpl. rewrite !andb_false_r. reflexivity.
Qed.

Lemma candidate_ignores_the_digests G digest style stored s :
  candidate (with_digest G digest) (with_originalDigest style stored) true s
  = candidate G style true s.
Proof.
  unfold candidate, andThen, resolve. simpl.
  destruct (usercssData style); [reflexivity|].
  unfold maybeUpdateUSO, andThen, download, settle. simpl.
  destruct (download_response G _ _); [|reflexivity].
  rewrite !andb_false_r. reflexivity.
Qed.

(** X13. With [ignoreDigest] the chain of a check, up to and including the
    report of a success, neither computes the digest nor reads
    [originalDigest]: with any other digest function and any other stored
    digest it settles in the same way and makes the same calls. *)
Theorem a_forced_check_ignores_the_digests G digest style stored port save s :
  attempt (with_digest G digest) (with_originalDigest style stored) port save true s
  = attempt G style port save true s.
Proof.
  unfold attempt, andThen. rewrite candidate_ignores_the_digests.
  destruct (candidate G style true s) as [[json|e|] s1]; try reflexivity.
  rewrite maybeSave_ignores_the_digests.
  destruct (maybeSave G style save true json s1) as [[saved|e|] s2]; reflexivity.
Qed.

(** ** The stamps on a saved document *)

Lemma differs_from_string_spec t v : differs_from_string t v = false <-> v = JStr t.
Proof.
  destruct v as [| | | |t'| |]; simpl; try (split; discriminate).
  rewrite negb_false_iff, String.eqb_eq. split; congruence.
Qed.

Lemma stamp_updateDate G style fs :
  lookup_field "updateDate" (stamp G style fs) = JNum (now G).
Proof.
  unfold stamp.
  destruct (_ && _);
    rewrite ?lookup_remove_ne, ?lookup_assign_ne, ?lookup_remove_ne,
      ?lookup_assign_ne by discriminate;
    apply lookup_assign_eq.
Qed.

(** The name the candidate came with is what the stamping compares. *)
Lemma stamp_by_name G style fs :
  (negb (same_string (originalName style) (name style))
   && differs_from_string (name style) (lookup_field "name" fs) = true ->
   lookup_field "name" (stamp G style fs) = JUndefined
   /\ lookup_field "originalName" (stamp G style fs) = lookup_field "originalName" fs)
  /\ (negb (same_string (originalName style) (name style))
      && differs_from_string (name style) (lookup_field "name" fs) = false ->
      lookup_field "name" (stamp G style fs) = lookup_field "name" fs
      /\ lookup_field "originalName" (stamp G style fs) = lookup_field "name" fs).
Proof.
  unfold stamp.
  rewrite !lookup_remove_ne, !lookup_assign_ne by discriminate.
  split; intros ->.
  - split; [apply lookup_remove_eq|].
    now rewrite !lookup_remove_ne, !lookup_assign_ne by discriminate.
  - split; [|apply lookup_assign_eq].
    now rewrite lookup_assign_ne, lookup_remove_ne, !lookup_assign_ne by discriminate.
Qed.

(** Every document the save-guard hands to the store is the stamped
    candidate, as it is or with the reason of a digest refresh. *)
Lemma maybeSave_store_writes G style save ignoreDigest json s :
  exists ws,
    store_writes (calls (snd (maybeSave G style save ignoreDigest json s)))
    = (store_writes (calls s) ++ ws)%list
    /\ Forall (fun doc =>
         exists fs,
           or_empty_object json = JObj fs
           /\ (doc = JObj (stamp G style fs)
               \/ doc = JObj (assign_field "reason" (JStr "update-digest")
                                (stamp G style fs)))) ws.
Proof.
  destruct (maybeSave_shape G style save ignoreDigest json s) as (saves & Hshape & -> & _).
  exists (store_writes saves). rewrite calls_replay. split.
  - unfold store_writes. now rewrite flat_map_app.
  - destruct Hshape as [-> | (fs & Hfs & [-> | [_ ->]])]; simpl; repeat constructor;
      exists fs; auto.
Qed.

(** X14. Every document the save-guard hands to the store, as a full save
    or as a digest refresh, carries the id of the local style and the time
    of the check as [updateDate], and has no [enabled] property, whatever
    the remote document said: the local on/off state is never overwritten.
    The candidate a dry run resolves with is stamped in the same way. *)
Theorem saved_documents_are_stamped G style save ignoreDigest json s :
  (exists ws,
      store_writes (calls (snd (maybeSave G style save ignoreDigest json s)))
      = (store_writes (calls s) ++ ws)%list
      /\ Forall (fun doc =>
           prop doc "id" = Normal (JNum (style_id style))
           /\ prop doc "updateDate" = Normal (JNum (now G))
           /\ prop doc "enabled" = Normal JUndefined) ws)
  /\ (save = false ->
      forall doc, fst (maybeSave G style save ignoreDigest json s) = Fulfilled doc ->
        prop doc "id" = Normal (JNum (style_id style))
        /\ prop doc "updateDate" = Normal (JNum (now G))
        /\ prop doc "enabled" = Normal JUndefined).
Proof.
  assert (forall fs,
    prop (JObj (stamp G style fs)) "id" = Normal (JNum (style_id style))
    /\ prop (JObj (stamp G style fs)) "updateDate" = Normal (JNum (now G))
    /\ prop (JObj (stamp G style fs)) "enabled" = Normal JUndefined) as Hstamped.
  { intros fs. simpl. now rewrite stamp_id, stamp_updateDate, stamp_enabled. }
  split.
  - destruct (maybeSave_store_writes G style save ignoreDigest json s) as (ws & Hws & Hall).
    exists ws. split; [exact Hws|].
    eapply Forall_impl; [exact Hall|]. intros doc (fs & _ & [-> | ->]).
    + apply Hstamped.
    + unfold prop. rewrite !lookup_assign_ne by discriminate. apply Hstamped.
  - intros -> doc.
    destruct (passes_validation (or_empty_object json)) as [[|]|x] eqn:Hvalid.
    + destruct (valid_is_object _ Hvalid) as [fs Hfs]. rewrite Hfs in Hvalid.
      rewrite (maybeSave_of_valid G style false ignoreDigest json fs s Hfs Hvalid).
      destruct (styleSectionsEqual G _ _); [discriminate|].
      destruct (_ && _); [discriminate|].
      simpl. intros [= <-]. apply Hstamped.
    + destruct (maybeSave_of_invalid G style false ignoreDigest json s) as (e & -> & _);
        [congruence | discriminate].
    + destruct (maybeSave_of_invalid G style false ignoreDigest json s) as (e & -> & _);
        [congruence | discriminate].
Qed.

(** X15. Every document handed to the store keeps a customised name: when
    the local name differs from [originalName] and from the remote name, the
    document has no [name] (the local one stays) and its [originalName] is
    left as the remote document had it; otherwise the remote name is taken
    over, as [name] and as [originalName]. *)
Theorem saved_documents_keep_a_custom_name G style save ignoreDigest json s :
  exists ws,
    store_writes (calls (snd (maybeSave G style save ignoreDigest json s)))
    = (store_writes (calls s) ++ ws)%list
    /\ Forall (fun doc =>
         exists fs,
           or_empty_object json = JObj fs
           /\ (originalName style <> Some (name style)
               /\ lookup_field "name" fs <> JStr (name style) ->
               prop doc "name" = Normal JUndefined
               /\ prop doc "originalName" = Normal (lookup_field "originalName" fs))
           /\ (originalName style = Some (name style)
               \/ lookup_field "name" fs = JStr (name style) ->
               prop doc "name" = Normal (lookup_field "name" fs)
               /\ prop doc "originalName" = Normal (lookup_field "name" fs))) ws.
Proof.
  destruct (maybeSave_store_writes G style save ignoreDigest json s) as (ws & Hws & Hall).
  exists ws. split; [exact Hws|].
  eapply Forall_impl; [exact Hall|]. intros doc (fs & Hfs & Hdoc).
  exists fs. split; [exact Hfs|].
  assert (forall k, k <> "reason" ->
            prop doc k = Normal (lookup_field k (stamp G style fs))) as Hprop.
  { intros k Hk. destruct Hdoc as [-> | ->]; unfold prop; [reflexivity|].
    now rewrite lookup_assign_ne. }
  rewrite !Hprop by discriminate.
  destruct (stamp_by_name G style fs) as [Hcustom Htaken]. split.
  - intros [Hrenamed Hdiffers].
    destruct Hcustom as [-> ->]; [|split; reflexivity].
    apply andb_true_iff. split.
    + apply negb_true_iff, same_string_false. exact Hrenamed.
    + destruct (differs_from_string _ _) eqn:E; [reflexivity|].
      apply differs_from_string_spec in E. contradiction.
  - intros Hsame.
    destruct Htaken as [-> ->]; [|split; reflexivity].
    apply andb_false_iff. destruct Hsame as [Hsame | Hsame].
    + left. apply negb_false_iff, same_string_true. exact Hsame.
    + right. now apply differs_from_string_spec.
Qed.

(** The name rule on the samples: a style renamed to "Mine" keeps its name
    against a remote "Dark"; one that was not renamed follows the remote. *)
Example name_scenarios :
  lookup_field "name"
    (stamp (Sample.world "D1" 24 (Sample.always "") JUndefined)
       {| style_id := 1; name := "Mine"; originalName := Some "Dark";
          originalDigest := None; originalMd5 := None; md5Url := None; updateUrl := None;
          usercssData := None; sourceCode := None; sections := JArr [] |}
       [("name", JStr "Dark"); ("enabled", JBool false)]) = JUndefined
  /\ lookup_field "name"
       (stamp (Sample.world "D1" 24 (Sample.always "") JUndefined) Sample.legacy
          [("name", JStr "Darker"); ("enabled", JBool false)]) = JStr "Darker"
  /\ lookup_field "originalName"
       (stamp (Sample.world "D1" 24 (Sample.always "") JUndefined) Sample.legacy
          [("name", JStr "Darker"); ("enabled", JBool false)]) = JStr "Darker"
  /\ lookup_field "enabled"
       (stamp (Sample.world "D1" 24 (Sample.always "") JUndefined) Sample.legacy
          [("name", JStr "Darker"); ("enabled", JBool false)]) = JUndefined.
Proof. repeat split. Qed.

(** ** The interval clock *)

Definition set_lastUpdateTime (t : Z) (s : State) : State :=
  {| lastUpdateTime := t; checkingAll := checkingAll s;
     logQueue := logQueue s; logLastWriteTime := logLastWriteTime s;
     retrying := retrying s; calls := calls s |}.

(** The page the module runs in: its own state, and [localStorage] with its
    string values. *)
Record Page := {
  vars : State;
  localStorage : gmap string string;
}.

(** [localStorage.lastUpdateTime = lastUpdateTime = Date.now(); schedule();]
    The number is stored as its decimal string. *)
Definition resetInterval (G : Globals) (p : Page) : Page :=
  {| vars := schedule G (set_lastUpdateTime (now G) (vars p));
     localStorage := <["lastUpdateTime" := pretty (now G)]> (localStorage p) |}.

(** X16. [resetInterval] makes now the time of the last check, in the
    module and in [localStorage] (whose other keys it leaves alone), and
    re-arms the next check as if no time had elapsed: after the whole
    interval for any interval of at least 10 seconds (so for every whole
    number of hours), after 10 seconds for a shorter or negative one, and
    not at all for the interval 0. *)
Theorem resetInterval_restarts_the_clock G p :
  lastUpdateTime (vars (resetInterval G p)) = now G
  /\ localStorage (resetInterval G p) !! "lastUpdateTime" = Some (pretty (now G))
  /\ (forall key, key <> "lastUpdateTime" ->
        localStorage (resetInterval G p) !! key = localStorage p !! key)
  /\ (1 <= updateInterval G ->
        pending FnCheckAllStyles (calls (vars (resetInterval G p)))
        = Some (updateInterval G * 3600000))
  /\ (updateInterval G < 0 ->
        pending FnCheckAllStyles (calls (vars (resetInterval G p))) = Some 10000)
  /\ (updateInterval G = 0 ->
        pending FnCheckAllStyles (calls (vars (resetInterval G p))) = None).
Proof.
  unfold resetInterval, schedule, debounce, debounce_unregister. simpl.
  assert (lastUpdateTime
            (if negb (Z.eqb (updateInterval G * 60 * 60 * 1000) 0)
             then call (CallDebounce FnCheckAllStyles
                          (Z.max 10000 (updateInterval G * 60 * 60 * 1000
                                        - Z.max 0 (now G - now G))))
                    (set_lastUpdateTime (now G) (vars p))
             else call (CallUnregister FnCheckAllStyles)
                    (set_lastUpdateTime (now G) (vars p))) = now G) as Hlast.
  { destruct (negb _); reflexivity. }
  split; [exact Hlast|]. split; [apply lookup_insert_eq|].
  split; [intros key Hkey; now apply lookup_insert_ne|].
  destruct (Z.eqb_spec (updateInterval G * 60 * 60 * 1000) 0) as [Hzero|Hnonzero]; simpl;
    rewrite pending_after_call; simpl.
  - split; [|split]; intros; try lia. reflexivity.
  - split; [|split]; intros; try lia; f_equal; lia.
Qed.

(** X17. [schedule] only calls [debounce]: the module's variables stay as
    they are and the pending flush of the log is not disturbed; and it is
    idempotent, a second call in the same state leaves the same delay
    armed. *)
Theorem schedule_is_idempotent G s :
  pending FnCheckAllStyles (calls (schedule G (schedule G s)))
  = pending FnCheckAllStyles (calls (schedule G s))
  /\ pending FnFlushQueue (calls (schedule G s)) = pending FnFlushQueue (calls s)
  /\ lastUpdateTime (schedule G s) = lastUpdateTime s
  /\ logQueue (schedule G s) = logQueue s
  /\ checkingAll (schedule G s) = checkingAll s.
Proof.
  unfold schedule, debounce, debounce_unregister.
  destruct (negb (Z.eqb (updateInterval G * 60 * 60 * 1000) 0)); simpl;
    rewrite !pending_after_call; repeat split.
Qed.

(** ** Logging and flushing *)

(** The state after [log] was called with each of the texts in turn. *)
Definition logged (G : Globals) (texts : list string) (s : State) : State :=
  fold_left (fun s t => snd (log G t s)) texts s.

Lemma logged_vars G texts s :
  logQueue (logged G texts s)
  = (logQueue s ++ map (fun t => {| text := t; time := localeNow G |}) texts)%list
  /\ logLastWriteTime (logged G texts s) = logLastWriteTime s
  /\ written (calls (logged G texts s)) = written (calls s).
Proof.
  revert s. induction texts as [|t texts IH]; intros s.
  - simpl. now rewrite app_nil_r.
  - change (logged G (t :: texts) s) with (logged G texts (snd (log G t s))).
    destruct (IH (snd (log G t s))) as (-> & -> & ->). unfold log, debounce. simpl.
    rewrite <- app_assoc. repeat split. unfold written. rewrite flat_map_app. simpl.
    apply app_nil_r.
Qed.

Lemma written_after_flush G key ls s :
  written (calls (set_logQueue [] (set_logLastWriteTime (now G)
                                     (call (CallStorageSet key ls) s))))
  = (written (calls s) ++ [ls])%list.
Proof. unfold written. simpl. now rewrite flat_map_app. Qed.



(** X19. A batch that was opened with a blank entry (as [checkAllStyles]
    opens its own): the blank entry is not written as a line of the batch;
    it puts one blank separator after the lines the flush was handed, and
    only if the last of them is not blank already (none on an empty log).
    The time stamp goes to the entry after the blank one; a blank entry on
    its own leaves a line with the stamp alone. *)
Theorem a_blank_entry_separates_the_batch G stored s texts :
  logQueue s = [] ->
  exists s',
    flushQueue G (Some stored) (logged G ("" :: texts) s) = Normal s'
    /\ written (calls s')
       = (written (calls s)
          ++ [most_recent 1000
                (default [] (lines stored)
                 ++ (if last_is_truthy (default [] (lines stored)) then [""] else []))
              ++ ((if Z.gtb (now G - logLastWriteTime s) 11000
                   then localeNow G +:+ " " else "") +:+ hd "" texts) :: tail texts])%list.
Proof.
  intros Hempty.
  destruct (logged_vars G ("" :: texts) s) as (Hqueue & Hlast & Hwritten).
  rewrite Hempty, app_nil_l in Hqueue.
  remember (logged G ("" :: texts) s) as s0 eqn:Hs0. clear Hs0.
  unfold flushQueue. rewrite Hqueue, Hlast. simpl.
  eexists. split; [reflexivity|].
  rewrite written_after_flush, Hwritten. f_equal. f_equal.
  unfold most_recent. rewrite <- app_assoc.
  assert (forall old : list string,
            (if last_is_truthy old then (old ++ [""])%list else old)
            = (old ++ (if last_is_truthy old then [""] else []))%list) as ->.
  { intros old. destruct (last_is_truthy old); [reflexivity | now rewrite app_nil_r]. }
  f_equal. destruct texts as [|t texts]; simpl; [reflexivity|].
  rewrite map_map. simpl. now rewrite map_id.
Qed.

Lemma a_blank_entry_separates_the_batch_witness :
  exists s',
    flushQueue (Sample.world "D1" 24 (Sample.always "") JUndefined)
      (Some {| lines := Some ["old"] |})
      (logged (Sample.world "D1" 24 (Sample.always "") JUndefined)
         [""; "Scheduled update check for 2 styles"] Sample.idle)
    = Normal s'
    /\ written (calls s')
       = [["old"; ""; "7/14/2017, 4:40:00 AM Scheduled update check for 2 styles"]].
Proof.
  apply (a_blank_entry_separates_the_batch
           (Sample.world "D1" 24 (Sample.always "") JUndefined)
           {| lines := Some ["old"] |} Sample.idle
           ["Scheduled update check for 2 styles"]).
  reflexivity.
Defined.

(** The world [G] when its clock reads [t]. *)
Definition at_time (t : Z) (G : Globals) : Globals :=
  {| now := t; localeNow := localeNow G;
     updateInterval := updateInterval G;
     calcStyleDigest := calcStyleDigest G;
     styleSectionsEqual := styleSectionsEqual G;
     getStyleWithNoCode := getStyleWithNoCode G;
     semverCompare := semverCompare G;
     download_response := download_response G;
     tryJSONparse := tryJSONparse G;
     usercss_buildMeta := usercss_buildMeta G;
     usercss_buildCode := usercss_buildCode G;
     API_METHODS := API_METHODS G |}.

(** X20. [flushQueue] is not safe to call twice: a flush leaves the queue
    empty and notes the time of the write, and a second call with a stored
    log, before anything is logged, reads a property of [logQueue[0]] on an
    empty queue and throws a [TypeError], writing nothing. The second call
    is made in a world [G'] of its own, whose clock may have moved on: when
    it reads more than 11 seconds after the first flush, the property read
    is [time] (line 235), otherwise it is [text] (line 237). (Two callbacks
    of [chrome.storage.local.get] can be pending at once, the first
    [flushQueue()] of each having returned before either came back.) *)
Theorem a_second_flush_throws G G' stored stored' s s' :
  flushQueue G (Some stored) s = Normal s' ->
  logQueue s' = []
  /\ logLastWriteTime s' = now G
  /\ (now G' - now G <= 11000 ->
      flushQueue G' (Some stored') s'
      = Throw (Exception "TypeError" "Cannot read property 'text' of undefined"))
  /\ (11000 < now G' - now G ->
      flushQueue G' (Some stored') s'
      = Throw (Exception "TypeError" "Cannot read property 'time' of undefined")).
Proof.
  unfold flushQueue at 1.
  destruct (logQueue s) as [|first rest].
  - destruct (Z.gtb _ _); discriminate.
  - assert (forall s0, logQueue s0 = [] -> logLastWriteTime s0 = now G ->
              (now G' - now G <= 11000 ->
               flushQueue G' (Some stored') s0
               = Throw (Exception "TypeError" "Cannot read property 'text' of undefined"))
              /\ (11000 < now G' - now G ->
                  flushQueue G' (Some stored') s0
                  = Throw (Exception "TypeError" "Cannot read property 'time' of undefined")))
      as Hsecond.
    { intros s0 Hqueue Hlast. unfold flushQueue. rewrite Hqueue, Hlast.
      destruct (Z.gtb_spec (now G' - now G) 11000); split; intros; (reflexivity || lia). }
    destruct (String.eqb (text first) ""); simpl; intros [= <-];
      (split; [reflexivity|]; split; [reflexivity|]; now apply Hsecond).
Qed.

Lemma a_second_flush_throws_witness :
  logQueue (set_logQueue []
              (set_logLastWriteTime 1500000000000
                 (call (CallStorageSet "updateLog" ["7/14/2017, 4:40:00 AM a"])
                    (Sample.queued [Sample.entry "a"])))) = []
  /\ logLastWriteTime
       (set_logQueue []
          (set_logLastWriteTime 1500000000000
             (call (CallStorageSet "updateLog" ["7/14/2017, 4:40:00 AM a"])
                (Sample.queued [Sample.entry "a"])))) = 1500000000000
  /\ (1500000000500 - 1500000000000 <= 11000 ->
      flushQueue (at_time 1500000000500 (Sample.world "D1" 24 (Sample.always "") JUndefined))
        (Some {| lines := Some ["a"] |})
        (set_logQueue []
           (set_logLastWriteTime 1500000000000
              (call (CallStorageSet "updateLog" ["7/14/2017, 4:40:00 AM a"])
                 (Sample.queued [Sample.entry "a"]))))
      = Throw (Exception "TypeError" "Cannot read property 'text' of undefined"))
  /\ (11000 < 1500000000500 - 1500000000000 ->
      flushQueue (at_time 1500000000500 (Sample.world "D1" 24 (Sample.always "") JUndefined))
        (Some {| lines := Some ["a"] |})
        (set_logQueue []
           (set_logLastWriteTime 1500000000000
              (call (CallStorageSet "updateLog" ["7/14/2017, 4:40:00 AM a"])
                 (Sample.queued [Sample.entry "a"]))))
      = Throw (Exception "TypeError" "Cannot read property 'time' of undefined")).
Proof.
  apply (a_second_flush_throws
           (Sample.world "D1" 24 (Sample.always "") JUndefined)
           (at_time 1500000000500 (Sample.world "D1" 24 (Sample.always "") JUndefined))
           {| lines := None |} {| lines := Some ["a"] |}
           (Sample.queued [Sample.entry "a"])).
  reflexivity.
Defined.

(** A second flush half a second after the first reads [text]; one a minute
    after the first reads [time]. *)
Example second_flush_scenarios :
  flushQueue (at_time 1500000000500 (Sample.world "D1" 24 (Sample.always "") JUndefined))
    (Some {| lines := Some ["a"] |})
    (set_logQueue []
       (set_logLastWriteTime 1500000000000
          (call (CallStorageSet "updateLog" ["7/14/2017, 4:40:00 AM a"])
             (Sample.queued [Sample.entry "a"]))))
  = Throw (Exception "TypeError" "Cannot read property 'text' of undefined")
  /\ flushQueue (at_time 1500000060000 (Sample.world "D1" 24 (Sample.always "") JUndefined))
       (Some {| lines := Some ["a"] |})
       (set_logQueue []
          (set_logLastWriteTime 1500000000000
             (call (CallStorageSet "updateLog" ["7/14/2017, 4:40:00 AM a"])
                (Sample.queued [Sample.entry "a"]))))
     = Throw (Exception "TypeError" "Cannot read property 'time' of undefined").
Proof. split; reflexivity. Qed.
